(** * shortcut-mcp: the safety-gated request pipeline of [shortcut_server.py]

    A shallow embedding of the API client ([make_shortcut_request]), the
    resource formatters ([format_objective], [format_epic], [format_story]),
    the tool catalog ([handle_list_tools]) and the tool dispatcher
    ([handle_call_tool]), followed by the properties the specification
    states about them.

    Python values are embedded as follows.
    - [str] is [string]; a string is its sequence of UTF-8 bytes.
    - A decoded JSON value is a [json]; a [dict] is an association list in
      insertion order, looked up by its first matching key.  An integer is
      a [Z]; a float is carried as the text [str] gives it together with
      its truth value, which is all the module asks of a number.
    - An exception is a value of [exn]; a computation that may raise returns
      an [outcome].
    - The network is an explicit world.  The log is the list of the calls
      of [client.request] made so far, in order: each entry is a request
      the module has handed to the HTTP client.  What the client and the
      remote service make of a call is a function of that log and of the
      request. *)

From Stdlib Require Import String Ascii ZArith List Bool Lia DecimalString.
Import ListNotations.
Local Open Scope string_scope.
Local Open Scope Z_scope.

Set Implicit Arguments.

(** ** Python values *)

Module Py.

#[warnings="-register-all"]
Inductive json : Type :=
| JNull
| JBool (b : bool)
| JInt (n : Z)
| JFloat (shown : string) (nonzero : bool)
| JStr (s : string)
| JList (items : list json)
| JObj (fields : list (string * json)).

Definition dict := list (string * json).

(** The line feed of the f-strings, and the two quote characters. *)
Definition nl : string := String "010"%char EmptyString.
Definition squote : ascii := "039"%char.
Definition dquote : ascii := "034"%char.

(** [bool(v)]: the truth value Python gives to [v] in [if v] and [not v]. *)
Definition truthy (v : json) : bool :=
  match v with
  | JNull => false
  | JBool b => b
  | JInt n => negb (n =? 0)
  | JFloat _ nonzero => nonzero
  | JStr s => negb (String.eqb s EmptyString)
  | JList items => match items with [] => false | _ :: _ => true end
  | JObj fields => match fields with [] => false | _ :: _ => true end
  end.

(** [d.get(k)] on a dict: [None] when the key is absent. *)
Fixpoint lookup (k : string) (d : dict) : option json :=
  match d with
  | [] => None
  | (k', v) :: rest => if String.eqb k k' then Some v else lookup k rest
  end.

(** [sep.join(parts)]. *)
Fixpoint join (sep : string) (parts : list string) : string :=
  match parts with
  | [] => EmptyString
  | [p] => p
  | p :: rest => p ++ sep ++ join sep rest
  end.

(** [s.endswith(x)]: some tail of [s] is [x]. *)
Fixpoint endswith (s x : string) : bool :=
  if String.eqb s x then true
  else match s with
       | EmptyString => false
       | String _ s' => endswith s' x
       end.

(** *** [str] and [repr] *)

Definition str_int (n : Z) : string := NilZero.string_of_int (Z.to_int n).

Definition hex_digit (n : nat) : ascii :=
  nth n (list_ascii_of_string "0123456789abcdef") "0"%char.

Fixpoint contains_char (c : ascii) (s : string) : bool :=
  match s with
  | EmptyString => false
  | String c' s' => Ascii.eqb c c' || contains_char c s'
  end.

(** The escapes of [repr] on a [str] whose delimiter is [q].  Python's
    table of printable characters is not part of the model: every
    character above U+007F is taken to be printable and its bytes are
    passed through, so the [repr] of a string nested in a list or object
    that holds a non-printable character above U+007F lacks the escape
    Python writes for it.  No statement below depends on the text of such
    a [repr]. *)
Fixpoint repr_escape (q : ascii) (s : string) : string :=
  match s with
  | EmptyString => EmptyString
  | String c s' =>
    let n := nat_of_ascii c in
    (if Ascii.eqb c q || Ascii.eqb c "\"%char then String "\"%char (String c EmptyString)
     else if Nat.eqb n 9 then "\t"
     else if Nat.eqb n 10 then "\n"
     else if Nat.eqb n 13 then "\r"
     else if Nat.ltb n 32 || Nat.eqb n 127
          then String "\"%char (String "x"%char
                 (String (hex_digit (Nat.div n 16)) (String (hex_digit (Nat.modulo n 16)) EmptyString)))
     else String c EmptyString) ++ repr_escape q s'
  end.

Definition repr_str (s : string) : string :=
  let q := if contains_char squote s && negb (contains_char dquote s)
           then dquote else squote in
  String q (repr_escape q s ++ String q EmptyString).

Fixpoint repr (v : json) : string :=
  match v with
  | JNull => "None"
  | JBool true => "True"
  | JBool false => "False"
  | JInt n => str_int n
  | JFloat shown _ => shown
  | JStr s => repr_str s
  | JList items => "[" ++ join ", " (map repr items) ++ "]"
  | JObj fields =>
    "{" ++ join ", " (map (fun kv => repr_str (fst kv) ++ ": " ++ repr (snd kv)) fields) ++ "}"
  end.

(** [str(v)], which is what an f-string field [{v}] inserts. *)
Definition str (v : json) : string :=
  match v with
  | JStr s => s
  | _ => repr v
  end.

End Py.

Import Py.

(** ** Exceptions and computations that may raise *)

(** The exception classes the module can raise or receive.  [ValueError]
    is a [ValueError] raised by one of the module's own [raise] statements.
    [HTTPError] stands for [httpx.HTTPError] and its subclasses
    ([HTTPStatusError] of [raise_for_status], the [RequestError]s of a
    failed transport); [JSONDecodeError] is the [ValueError] subclass of
    [response.json()].  [LibraryError] is any other exception raised inside
    the HTTP client or the JSON decoder, kept with the name of its class:
    [httpx.InvalidURL], [UnicodeEncodeError], [UnicodeDecodeError], the
    [ValueError] of the interpreter's limit on the digits of an integer,
    [RecursionError]; none of them is an [httpx.HTTPError].  [TypeError]
    and [AttributeError] are the faults of an operation applied to a value
    of the wrong shape, their messages left out. *)
Inductive exn : Type :=
| ValueError (msg : string)
| KeyError (key : string)
| HTTPError (msg : string)
| JSONDecodeError (msg : string)
| LibraryError (class msg : string)
| TypeError
| AttributeError.

Inductive outcome (A : Type) : Type :=
| Returns (a : A)
| Raises (e : exn).
Arguments Returns {A} a.
Arguments Raises {A} e.

Definition obind {A B} (m : outcome A) (k : A -> outcome B) : outcome B :=
  match m with
  | Returns a => k a
  | Raises e => Raises e
  end.

(** A list comprehension or an appending [for] loop over [xs] whose body
    may raise: elements are handled left to right and the first exception
    ends the loop. *)
Fixpoint omap {A B} (f : A -> outcome B) (xs : list A) : outcome (list B) :=
  match xs with
  | [] => Returns []
  | x :: rest =>
    obind (f x) (fun y => obind (omap f rest) (fun ys => Returns (y :: ys)))
  end.

(** ** The network *)

Record http_request : Type := {
  req_method : string;
  req_url : string;
  req_headers : list (string * string);
  req_json : option dict;
  req_params : option dict;
  req_timeout : Z
}.

(** What [client.request], [raise_for_status] and [response.json()] make of
    one call.
    - [Json2xx]: a 2xx answer whose body decodes to [body].
    - [Undecodable2xx]: a 2xx answer whose body is not JSON; [json()] raises
      [JSONDecodeError].
    - [StatusError]: an answer that is not 2xx; [raise_for_status] raises
      [HTTPStatusError].
    - [TransportError]: [client.request] raises a [RequestError] (connection,
      timeout, protocol).
    - [Refused]: [client.request] raises, before anything is on the wire, an
      exception that is not an [httpx.HTTPError]: [httpx.InvalidURL] for a
      URL it cannot take, [UnicodeEncodeError] for a header value that is
      not ASCII.
    - [Unreadable2xx]: a 2xx answer on which [json()] raises something other
      than [JSONDecodeError]: the [ValueError] of an integer with more
      digits than the interpreter converts, [UnicodeDecodeError],
      [RecursionError]. *)
Inductive http_result : Type :=
| Json2xx (body : json)
| Undecodable2xx (msg : string)
| StatusError (status : Z) (msg : string)
| TransportError (msg : string)
| Refused (class msg : string)
| Unreadable2xx (class msg : string).

Definition log := list http_request.

(** The process and its surroundings: the credential read from the
    environment at import time, and what the HTTP client and the remote
    service answer to a call. *)
Record world : Type := {
  SHORTCUT_API_TOKEN : option string;
  remote : log -> http_request -> http_result
}.

(** A coroutine of the module: it may call the HTTP client, which extends
    the log, and returns or raises. *)
Definition io (A : Type) : Type := log -> outcome A * log.

Definition ret {A} (a : A) : io A := fun l => (Returns a, l).
Definition raise {A} (e : exn) : io A := fun l => (Raises e, l).
Definition bind {A B} (m : io A) (k : A -> io B) : io B :=
  fun l => match m l with
           | (Returns a, l') => k a l'
           | (Raises e, l') => (Raises e, l')
           end.
Definition lift {A} (m : outcome A) : io A := fun l => (m, l).

(** [try: body except httpx.HTTPError as e: handler(str(e))]. *)
Definition try_except_HTTPError {A} (body : io A) (handler : string -> io A) : io A :=
  fun l => match body l with
           | (Raises (HTTPError msg), l') => handler msg l'
           | r => r
           end.

Declare Scope io_scope.
Delimit Scope io_scope with io.
Notation "x <- m ;; k" := (bind m (fun x => k))
  (at level 61, m at next level, right associativity) : io_scope.
Notation "x <-- m ;; k" := (obind m (fun x => k))
  (at level 61, m at next level, right associativity) : io_scope.

(** ** API client *)

Definition API_BASE_URL : string := "https://api.app.shortcut.com/api/v3".

Definition method_not_allowed (method : string) : string :=
  "Method " ++ method ++ " is not allowed for safety reasons. Only GET and POST are permitted.".
Definition post_not_allowed (endpoint : string) : string :=
  "POST requests are only allowed for creation endpoints, not for " ++ endpoint.
Definition token_not_set : string :=
  "SHORTCUT_API_TOKEN environment variable not set".

Definition string_in (s : string) (l : list string) : bool :=
  existsb (String.eqb s) l.

(** [any(endpoint.endswith(x) for x in ["stories", "epics", "objectives"])]. *)
Definition creation_endpoint (endpoint : string) : bool :=
  existsb (endswith endpoint) ["stories"; "epics"; "objectives"].

(** [not SHORTCUT_API_TOKEN]: unset, or set to the empty string. *)
Definition token_value (w : world) : option string :=
  match SHORTCUT_API_TOKEN w with
  | Some t => if String.eqb t EmptyString then None else Some t
  | None => None
  end.

Definition build_request (token method endpoint : string)
    (json params : option dict) : http_request :=
  {| req_method := method;
     req_url := API_BASE_URL ++ "/" ++ endpoint;
     req_headers := [("Content-Type", "application/json"); ("Shortcut-Token", token)];
     req_json := json;
     req_params := params;
     req_timeout := 30 |}.

(** [client.request(...)], [response.raise_for_status()],
    [response.json()]: the call joins the log, whatever comes of it, and
    the world answers. *)
Definition send (w : world) (r : http_request) : io json :=
  fun l => (match remote w l r with
            | Json2xx body => Returns body
            | Undecodable2xx msg => Raises (JSONDecodeError msg)
            | StatusError _ msg => Raises (HTTPError msg)
            | TransportError msg => Raises (HTTPError msg)
            | Refused class msg => Raises (LibraryError class msg)
            | Unreadable2xx class msg => Raises (LibraryError class msg)
            end, (l ++ [r])%list).

Definition make_shortcut_request (w : world) (method endpoint : string)
    (json params : option dict) : io Py.json :=
  if negb (string_in method ["GET"; "POST"]) then
    raise (ValueError (method_not_allowed method))
  else if String.eqb method "POST" && negb (creation_endpoint endpoint) then
    raise (ValueError (post_not_allowed endpoint))
  else match token_value w with
       | None => raise (ValueError token_not_set)
       | Some token => send w (build_request token method endpoint json params)
       end.

(** ** Operations on decoded JSON *)

(** [v[k]] for a string key: a strict lookup. *)
Definition getitem (v : json) (k : string) : outcome json :=
  match v with
  | JObj fields =>
    match lookup k fields with
    | Some x => Returns x
    | None => Raises (KeyError k)
    end
  | _ => Raises TypeError
  end.

(** [v.get(k, default)]: only a dict has the method. *)
Definition get (v : json) (k : string) (default : json) : outcome json :=
  match v with
  | JObj fields =>
    match lookup k fields with
    | Some x => Returns x
    | None => Returns default
    end
  | _ => Raises AttributeError
  end.

(** [arguments.get(k)] on the argument map. *)
Definition arg_get (arguments : dict) (k : string) : json :=
  match lookup k arguments with
  | Some x => x
  | None => JNull
  end.

(** [arguments[k]] on the argument map. *)
Definition arg_item (arguments : dict) (k : string) : outcome json :=
  getitem (JObj arguments) k.

(** The elements a [for] loop or a comprehension draws from [v]: the items
    of a list, the keys of a dict, the characters of a string. *)
Definition iterate (v : json) : outcome (list json) :=
  match v with
  | JList items => Returns items
  | JObj fields => Returns (map (fun kv => JStr (fst kv)) fields)
  | JStr s => Returns (map (fun c => JStr (String c EmptyString)) (list_ascii_of_string s))
  | _ => Raises TypeError
  end.

(** [v[:10]]: lists and strings can be sliced.  A dict cannot: the slice
    is refused as a key ([TypeError] up to Python 3.11, which is what the
    model has; later versions look the slice up and raise [KeyError]). *)
Definition slice10 (v : json) : outcome json :=
  match v with
  | JList items => Returns (JList (firstn 10 items))
  | JStr s => Returns (JStr (substring 0 10 s))
  | _ => Raises TypeError
  end.

(** ** Resource formatters *)

Local Open Scope io_scope.

Definition format_objective (objective : json) : outcome string :=
  name <-- getitem objective "name" ;;
  status <-- get objective "status" (JStr "Unknown") ;;
  description <-- get objective "description" (JStr "No description") ;;
  app_url <-- get objective "app_url" (JStr EmptyString) ;;
  Returns ("Objective: " ++ str name ++ nl ++
           "Status: " ++ str status ++ nl ++
           "Description: " ++ str description ++ nl ++
           "URL: " ++ str app_url ++ nl ++
           "---").

Definition format_epic (epic : json) : outcome string :=
  name <-- getitem epic "name" ;;
  state <-- get epic "state" (JStr "Unknown") ;;
  description <-- get epic "description" (JStr "No description") ;;
  milestone <-- get epic "milestone" (JObj []) ;;
  milestone_name <-- get milestone "name" (JStr "None") ;;
  app_url <-- get epic "app_url" (JStr EmptyString) ;;
  Returns ("Epic: " ++ str name ++ nl ++
           "Status: " ++ str state ++ nl ++
           "Description: " ++ str description ++ nl ++
           "Milestone: " ++ str milestone_name ++ nl ++
           "URL: " ++ str app_url ++ nl ++
           "---").

Definition format_story (story : json) : outcome string :=
  id <-- getitem story "id" ;;
  name <-- getitem story "name" ;;
  workflow_state <-- get story "workflow_state" (JObj []) ;;
  state_name <-- get workflow_state "name" (JStr "Unknown") ;;
  story_type <-- get story "story_type" (JStr "Unknown") ;;
  description <-- get story "description" (JStr "No description") ;;
  app_url <-- get story "app_url" (JStr EmptyString) ;;
  Returns ("Story " ++ str id ++ ": " ++ str name ++ nl ++
           "Status: " ++ str state_name ++ nl ++
           "Type: " ++ str story_type ++ nl ++
           "Description: " ++ str description ++ nl ++
           "URL: " ++ str app_url ++ nl ++
           "---").

(** The f-string the [list-projects] loop appends for one project
    (lines 283-288). *)
Definition format_project (project : json) : outcome string :=
  id <-- getitem project "id" ;;
  name <-- getitem project "name" ;;
  description <-- get project "description" (JStr "No description") ;;
  Returns ("Project ID: " ++ str id ++ nl ++
           "Name: " ++ str name ++ nl ++
           "Description: " ++ str description ++ nl ++
           "---").

(** One line of a workflow's state list (line 301). *)
Definition format_state (state : json) : outcome string :=
  name <-- getitem state "name" ;;
  id <-- getitem state "id" ;;
  Returns ("- " ++ str name ++ " (ID: " ++ str id ++ ")").

(** The body of the [list-workflows] loop (lines 300-309): the state lines
    are built first, then the workflow's own name is read. *)
Definition format_workflow (workflow : json) : outcome string :=
  states_value <-- get workflow "states" (JList []) ;;
  state_items <-- iterate states_value ;;
  states <-- omap format_state state_items ;;
  name <-- getitem workflow "name" ;;
  Returns ("Workflow: " ++ str name ++ nl ++
           "States:" ++ nl ++ join nl states ++ nl ++
           "---").

(** ** Tool catalog *)

Record Tool : Type := {
  name : string;
  description : string;
  inputSchema : json
}.

Definition string_property (text : string) : json :=
  JObj [("type", JStr "string"); ("description", JStr text)].
Definition number_property (text : string) : json :=
  JObj [("type", JStr "number"); ("description", JStr text)].
Definition enum_property (text : string) (choices : list string) : json :=
  JObj [("type", JStr "string"); ("description", JStr text);
        ("enum", JList (map JStr choices))].

Definition schema (properties : dict) (required : option (list string)) : json :=
  JObj (("type", JStr "object") :: ("properties", JObj properties) ::
        match required with
        | Some names => [("required", JList (map JStr names))]
        | None => []
        end).

(** [handle_list_tools].  [authenticated_user] is the record of the current
    user that [shortcut_server] holds; it only reaches the descriptions. *)
Definition handle_list_tools (authenticated_user : dict) : list Tool :=
  let user_info :=
    " (Will be created as " ++ str (arg_get authenticated_user "name") ++ ")" in
  [ {| name := "search-stories";
       description := "Search for stories in Shortcut";
       inputSchema := schema
         [("query", string_property "Search query (e.g. story title, description, or ID)")]
         (Some ["query"]) |};
    {| name := "create-story";
       description := "Create a new story in Shortcut" ++ user_info;
       inputSchema := schema
         [("name", string_property "Story title");
          ("description", string_property "Story description");
          ("story_type", enum_property "Story type (feature, bug, chore)"
                           ["feature"; "bug"; "chore"]);
          ("project_id", number_property "Project ID to create the story in")]
         (Some ["name"; "description"; "story_type"; "project_id"]) |};
    {| name := "list-projects";
       description := "List all projects in Shortcut";
       inputSchema := schema [] None |};
    {| name := "list-workflows";
       description := "List all workflows and their states";
       inputSchema := schema [] None |};
    {| name := "list-objectives";
       description := "List all objectives in Shortcut";
       inputSchema := schema
         [("status", enum_property "Filter by status (active, draft, closed)"
                       ["active"; "draft"; "closed"])]
         None |};
    {| name := "create-objective";
       description := "Create a new objective in Shortcut" ++ user_info;
       inputSchema := schema
         [("name", string_property "Objective name");
          ("description", string_property "Objective description");
          ("status", enum_property "Objective status" ["active"; "draft"; "closed"])]
         (Some ["name"; "description"; "status"]) |};
    {| name := "list-epics";
       description := "List epics in Shortcut";
       inputSchema := schema
         [("status", enum_property "Filter by status (to do, in progress, done)"
                       ["to do"; "in progress"; "done"])]
         None |};
    {| name := "create-epic";
       description := "Create a new epic in Shortcut" ++ user_info;
       inputSchema := schema
         [("name", string_property "Epic name");
          ("description", string_property "Epic description");
          ("milestone_id", number_property "Optional milestone ID to associate with the epic")]
         (Some ["name"; "description"]) |} ].

(** ** Tool dispatcher *)

(** [types.TextContent(type="text", text=...)], the only content block the
    module builds. *)
Record TextContent : Type := { type : string; text : string }.

Definition text_block (s : string) : list TextContent :=
  [ {| type := "text"; text := s |} ].

(** [params = {}; if status := arguments.get("status"): params["status"] = status]. *)
Definition status_params (arguments : dict) : dict :=
  let status := arg_get arguments "status" in
  if truthy status then [("status", status)] else [].

(** The branches of the [if]/[elif] chain on the tool name, inside [try].
    [tool] is the parameter [name] of [handle_call_tool].  The chain is
    read through line 316, whose [else:] has no body: [list-objectives] and
    the branches after it continue it, down to the final [else] that
    raises. *)
Definition dispatch (w : world) (tool : string) (arguments : dict)
  : io (list TextContent) :=
  if String.eqb tool "search-stories" then
    let query := arg_get arguments "query" in
    search_results <- make_shortcut_request w "GET" "search/stories"
                        None (Some [("query", query)]) ;;
    stories <- lift (get search_results "data" (JList [])) ;;
    if negb (truthy stories) then
      ret (text_block ("No stories found matching query: " ++ str query))
    else
      formatted_stories <- lift (first10 <-- slice10 stories ;;
                                 items <-- iterate first10 ;;
                                 omap format_story items) ;;
      ret (text_block ("Found stories:" ++ nl ++ nl ++ join nl formatted_stories))
  else if String.eqb tool "create-story" then
    story_data <- lift (name <-- arg_item arguments "name" ;;
                        description <-- arg_item arguments "description" ;;
                        story_type <-- arg_item arguments "story_type" ;;
                        project_id <-- arg_item arguments "project_id" ;;
                        Returns [("name", name); ("description", description);
                                 ("story_type", story_type); ("project_id", project_id)]) ;;
    new_story <- make_shortcut_request w "POST" "stories" (Some story_data) None ;;
    formatted <- lift (format_story new_story) ;;
    ret (text_block ("Created new story:" ++ nl ++ nl ++ formatted))
  else if String.eqb tool "list-projects" then
    projects <- make_shortcut_request w "GET" "projects" None None ;;
    formatted_projects <- lift (items <-- iterate projects ;;
                                omap format_project items) ;;
    ret (text_block ("Available projects:" ++ nl ++ nl ++ join nl formatted_projects))
  else if String.eqb tool "list-workflows" then
    workflows <- make_shortcut_request w "GET" "workflows" None None ;;
    formatted_workflows <- lift (items <-- iterate workflows ;;
                                 omap format_workflow items) ;;
    ret (text_block ("Available workflows and states:" ++ nl ++ nl ++
                     join nl formatted_workflows))
  else if String.eqb tool "list-objectives" then
    objectives <- make_shortcut_request w "GET" "objectives"
                    None (Some (status_params arguments)) ;;
    if negb (truthy objectives) then
      ret (text_block "No objectives found")
    else
      formatted_objectives <- lift (items <-- iterate objectives ;;
                                    omap format_objective items) ;;
      ret (text_block ("Objectives:" ++ nl ++ nl ++ join nl formatted_objectives))
  else if String.eqb tool "create-objective" then
    objective_data <- lift (name <-- arg_item arguments "name" ;;
                            description <-- arg_item arguments "description" ;;
                            status <-- arg_item arguments "status" ;;
                            Returns [("name", name); ("description", description);
                                     ("status", status)]) ;;
    new_objective <- make_shortcut_request w "POST" "objectives" (Some objective_data) None ;;
    formatted <- lift (format_objective new_objective) ;;
    ret (text_block ("Created new objective:" ++ nl ++ nl ++ formatted))
  else if String.eqb tool "list-epics" then
    epics <- make_shortcut_request w "GET" "epics"
               None (Some (status_params arguments)) ;;
    if negb (truthy epics) then
      ret (text_block "No epics found")
    else
      formatted_epics <- lift (items <-- iterate epics ;;
                               omap format_epic items) ;;
      ret (text_block ("Epics:" ++ nl ++ nl ++ join nl formatted_epics))
  else if String.eqb tool "create-epic" then
    epic_data <- lift (name <-- arg_item arguments "name" ;;
                       description <-- arg_item arguments "description" ;;
                       Returns [("name", name); ("description", description)]) ;;
    let milestone_id := arg_get arguments "milestone_id" in
    let epic_data := if truthy milestone_id
                     then (epic_data ++ [("milestone_id", milestone_id)])%list
                     else epic_data in
    new_epic <- make_shortcut_request w "POST" "epics" (Some epic_data) None ;;
    formatted <- lift (format_epic new_epic) ;;
    ret (text_block ("Created new epic:" ++ nl ++ nl ++ formatted))
  else
    raise (ValueError ("Unknown tool: " ++ tool)).

(** [handle_call_tool].  The emptiness guard stands before the [try]; the
    [except] clause names [httpx.HTTPError] alone. *)
Definition handle_call_tool (w : world) (tool : string) (arguments : option dict)
  : io (list TextContent) :=
  match arguments with
  | None | Some [] => raise (ValueError "Missing arguments")
  | Some arguments =>
    try_except_HTTPError (dispatch w tool arguments)
      (fun e => ret (text_block ("API request failed: " ++ e)))
  end.

(** ** The specification's vocabulary *)

(** [s] ends with [x]: the reading of "ends with" that does not mention
    [endswith]. *)
Definition ends_with (s x : string) : Prop := exists p, s = p ++ x.

(** [sub] occurs in [s]. *)
Definition contains (sub s : string) : Prop := exists a b, s = a ++ sub ++ b.

(** The error kinds of the specification, read on the exceptions the code
    raises: both policy failures and the missing credential are
    [ValueError]s told apart by their message, a remote failure is an
    [httpx.HTTPError], a strict lookup that misses is a [KeyError]. *)
Definition PolicyViolation (e : exn) : Prop :=
  (exists method, e = ValueError (method_not_allowed method)) \/
  (exists endpoint, e = ValueError (post_not_allowed endpoint)).
Definition UnknownTool (tool : string) (e : exn) : Prop :=
  e = ValueError ("Unknown tool: " ++ tool).


(** ** Reading the catalog *)

Definition find_tool (catalog : list Tool) (tool : string) : option Tool :=
  find (fun t => String.eqb (name t) tool) catalog.

Definition strings_of (items : list json) : list string :=
  flat_map (fun v => match v with JStr s => [s] | _ => [] end) items.

(** The names under ["required"] of a schema, none when the key is absent. *)
Definition required_fields (schema : json) : list string :=
  match getitem schema "required" with
  | Returns (JList items) => strings_of items
  | _ => []
  end.


Definition has_key (k : string) (d : dict) : bool :=
  match lookup k d with
  | Some _ => true
  | None => false
  end.




Definition creation_tools : list string :=
  ["create-story"; "create-objective"; "create-epic"].

(** ** The dispatcher, branch by branch

    Every branch of [dispatch] has one shape: the arguments are read, one
    request is made, its answer is formatted.  [plan_of] names the three
    parts, and [dispatch_plan] below proves that running the plan is what
    [dispatch] does. *)

Record plan : Type := {
  plan_method : string;
  plan_endpoint : string;
  plan_json : option dict;
  plan_params : option dict;
  plan_format : json -> outcome (list TextContent)
}.

Definition search_stories_format (query : json) (search_results : json)
  : outcome (list TextContent) :=
  stories <-- get search_results "data" (JList []) ;;
  if negb (truthy stories) then
    Returns (text_block ("No stories found matching query: " ++ str query))
  else
    formatted_stories <-- (first10 <-- slice10 stories ;;
                           items <-- iterate first10 ;;
                           omap format_story items) ;;
    Returns (text_block ("Found stories:" ++ nl ++ nl ++ join nl formatted_stories)).

Definition listing_format (header : string) (format : json -> outcome string)
    (records : json) : outcome (list TextContent) :=
  formatted <-- (items <-- iterate records ;; omap format items) ;;
  Returns (text_block (header ++ nl ++ nl ++ join nl formatted)).

Definition guarded_listing_format (none_found header : string)
    (format : json -> outcome string) (records : json)
  : outcome (list TextContent) :=
  if negb (truthy records) then Returns (text_block none_found)
  else listing_format header format records.

Definition created_format (header : string) (format : json -> outcome string)
    (record : json) : outcome (list TextContent) :=
  formatted <-- format record ;;
  Returns (text_block (header ++ nl ++ nl ++ formatted)).

Definition plan_of (tool : string) (arguments : dict) : outcome plan :=
  if String.eqb tool "search-stories" then
    let query := arg_get arguments "query" in
    Returns {| plan_method := "GET"; plan_endpoint := "search/stories";
               plan_json := None; plan_params := Some [("query", query)];
               plan_format := search_stories_format query |}
  else if String.eqb tool "create-story" then
    name <-- arg_item arguments "name" ;;
    description <-- arg_item arguments "description" ;;
    story_type <-- arg_item arguments "story_type" ;;
    project_id <-- arg_item arguments "project_id" ;;
    Returns {| plan_method := "POST"; plan_endpoint := "stories";
               plan_json := Some [("name", name); ("description", description);
                                  ("story_type", story_type); ("project_id", project_id)];
               plan_params := None;
               plan_format := created_format "Created new story:" format_story |}
  else if String.eqb tool "list-projects" then
    Returns {| plan_method := "GET"; plan_endpoint := "projects";
               plan_json := None; plan_params := None;
               plan_format := listing_format "Available projects:" format_project |}
  else if String.eqb tool "list-workflows" then
    Returns {| plan_method := "GET"; plan_endpoint := "workflows";
               plan_json := None; plan_params := None;
               plan_format :=
                 listing_format "Available workflows and states:" format_workflow |}
  else if String.eqb tool "list-objectives" then
    Returns {| plan_method := "GET"; plan_endpoint := "objectives";
               plan_json := None; plan_params := Some (status_params arguments);
               plan_format :=
                 guarded_listing_format "No objectives found" "Objectives:"
                                        format_objective |}
  else if String.eqb tool "create-objective" then
    name <-- arg_item arguments "name" ;;
    description <-- arg_item arguments "description" ;;
    status <-- arg_item arguments "status" ;;
    Returns {| plan_method := "POST"; plan_endpoint := "objectives";
               plan_json := Some [("name", name); ("description", description);
                                  ("status", status)];
               plan_params := None;
               plan_format := created_format "Created new objective:" format_objective |}
  else if String.eqb tool "list-epics" then
    Returns {| plan_method := "GET"; plan_endpoint := "epics";
               plan_json := None; plan_params := Some (status_params arguments);
               plan_format :=
                 guarded_listing_format "No epics found" "Epics:" format_epic |}
  else if String.eqb tool "create-epic" then
    name <-- arg_item arguments "name" ;;
    description <-- arg_item arguments "description" ;;
    let milestone_id := arg_get arguments "milestone_id" in
    let epic_data := [("name", name); ("description", description)] in
    Returns {| plan_method := "POST"; plan_endpoint := "epics";
               plan_json := Some (if truthy milestone_id
                                  then (epic_data ++ [("milestone_id", milestone_id)])%list
                                  else epic_data);
               plan_params := None;
               plan_format := created_format "Created new epic:" format_epic |}
  else
    Raises (ValueError ("Unknown tool: " ++ tool)).

Definition run_plan (w : world) (p : outcome plan) : io (list TextContent) :=
  match p with
  | Raises e => raise e
  | Returns p =>
    answer <- make_shortcut_request w (plan_method p) (plan_endpoint p)
                (plan_json p) (plan_params p) ;;
    lift (plan_format p answer)
  end.

(** The [except] clause, on an outcome. *)
Definition caught (o : outcome (list TextContent)) : outcome (list TextContent) :=
  match o with
  | Raises (HTTPError msg) => Returns (text_block ("API request failed: " ++ msg))
  | _ => o
  end.

(** What the remote's answer to a sent request becomes in the client. *)
Definition answer_of (res : http_result) : outcome json :=
  match res with
  | Json2xx body => Returns body
  | Undecodable2xx msg => Raises (JSONDecodeError msg)
  | StatusError _ msg => Raises (HTTPError msg)
  | TransportError msg => Raises (HTTPError msg)
  | Refused class msg => Raises (LibraryError class msg)
  | Unreadable2xx class msg => Raises (LibraryError class msg)
  end.

(** ** Records the formatters accept, and fixtures *)

(** A story record as the glossary has it: an object with [id] and [name],
    whose [workflow_state], when present, is an object. *)
Definition story_record (v : json) : bool :=
  match v with
  | JObj fields =>
    has_key "id" fields && has_key "name" fields &&
    match lookup "workflow_state" fields with
    | Some (JObj _) | None => true
    | Some _ => false
    end
  | _ => false
  end.

(** [format] accepts [v]: it returns a block. *)
Definition accepts (format : json -> outcome string) (v : json) : Prop :=
  exists block, format v = Returns block.

(** A world with the given credential whose remote gives one fixed answer. *)
Definition fixture (token : option string) (answer : http_result) : world :=
  {| SHORTCUT_API_TOKEN := token; remote := fun _ _ => answer |}.

Definition some_arguments : dict := [("page", JInt 1)].

Definition story_arguments : dict :=
  [("name", JStr "A"); ("description", JStr "B");
   ("story_type", JStr "bug"); ("project_id", JInt 7)].

Definition story_number (n : Z) : json :=
  JObj [("id", JInt n); ("name", JStr "Story")].

Definition fifteen_stories : list json :=
  map story_number [1; 2; 3; 4; 5; 6; 7; 8; 9; 10; 11; 12; 13; 14; 15].

(** The one request [create-story] is expected to send for
    [story_arguments], written out. *)
Definition create_story_request (token : string) : http_request :=
  {| req_method := "POST";
     req_url := "https://api.app.shortcut.com/api/v3/stories";
     req_headers := [("Content-Type", "application/json"); ("Shortcut-Token", token)];
     req_json := Some [("name", JStr "A"); ("description", JStr "B");
                       ("story_type", JStr "bug"); ("project_id", JInt 7)];
     req_params := None;
     req_timeout := 30 |}.

(** [result] is one text block whose text is [heading] applied to the
    blocks of exactly the records [shown], one block per record, in their
    order. *)
Definition shows (format : json -> outcome string) (shown : list json)
    (heading : list string -> string) (result : outcome (list TextContent)) : Prop :=
  exists blocks,
    Forall2 (fun record block => format record = Returns block) shown blocks /\
    length blocks = length shown /\
    result = Returns (text_block (heading blocks)).

(** The exceptions of reading a decoded value: a strict lookup that misses,
    or an operation the value's type does not have. *)
Definition shape_fault (e : exn) : Prop :=
  match e with
  | KeyError _ | TypeError | AttributeError => True
  | _ => False
  end.

(** ** Vocabulary of the further properties *)

(** What the two safety checks of [make_shortcut_request] let through, said
    without its code: a GET, or a POST to an endpoint with a creation
    suffix. *)
Definition permitted (method endpoint : string) : Prop :=
  method = "GET" \/
  (method = "POST" /\
   (ends_with endpoint "stories" \/ ends_with endpoint "epics" \/
    ends_with endpoint "objectives")).

(** The request [make_shortcut_request] builds, written out. *)
Definition request_for (token method endpoint : string)
    (json params : option dict) : http_request :=
  {| req_method := method;
     req_url := "https://api.app.shortcut.com/api/v3" ++ "/" ++ endpoint;
     req_headers := [("Content-Type", "application/json"); ("Shortcut-Token", token)];
     req_json := json;
     req_params := params;
     req_timeout := 30 |}.

(** The method and endpoint of each tool, as a table. *)
Definition route_table : list (string * (string * string)) :=
  [ ("search-stories", ("GET", "search/stories"));
    ("create-story", ("POST", "stories"));
    ("list-projects", ("GET", "projects"));
    ("list-workflows", ("GET", "workflows"));
    ("list-objectives", ("GET", "objectives"));
    ("create-objective", ("POST", "objectives"));
    ("list-epics", ("GET", "epics"));
    ("create-epic", ("POST", "epics")) ].

Definition tool_route (tool : string) : option (string * string) :=
  match find (fun entry => String.eqb tool (fst entry)) route_table with
  | Some entry => Some (snd entry)
  | None => None
  end.

(** The first field, in the order of the schema's ["required"] list, that
    the argument map lacks. *)
Definition first_missing (catalog : list Tool) (tool : string) (arguments : dict)
  : option string :=
  match find_tool catalog tool with
  | Some t => find (fun field => negb (has_key field arguments))
                   (required_fields (inputSchema t))
  | None => None
  end.

Definition is_object (v : json) : bool :=
  match v with
  | JObj _ => true
  | _ => false
  end.

(** The records of the glossary, as the formatters need them: the fields
    read by a strict lookup are there, and a field read through a chained
    [get] is an object when it is there. *)
Definition objective_record (v : json) : bool :=
  match v with
  | JObj fields => has_key "name" fields
  | _ => false
  end.

Definition epic_record (v : json) : bool :=
  match v with
  | JObj fields =>
    has_key "name" fields &&
    match lookup "milestone" fields with
    | Some milestone => is_object milestone
    | None => true
    end
  | _ => false
  end.

Definition project_record (v : json) : bool :=
  match v with
  | JObj fields => has_key "id" fields && has_key "name" fields
  | _ => false
  end.

Definition starts_with (s x : string) : Prop := exists tail, s = x ++ tail.

(** The JSON bodies the creation tools assemble from their arguments. *)
Definition story_body (name description story_type project_id : json) : dict :=
  [("name", name); ("description", description);
   ("story_type", story_type); ("project_id", project_id)].

Definition objective_body (name description status : json) : dict :=
  [("name", name); ("description", description); ("status", status)].

Definition epic_body (name description : json) (milestone_id : option json) : dict :=
  ("name", name) :: ("description", description) ::
  match milestone_id with
  | Some m => if truthy m then [("milestone_id", m)] else []
  | None => []
  end.

(** * Properties *)

Unset Implicit Arguments.

(** ** Strings *)

Lemma endswith_spec (s x : string) : endswith s x = true <-> ends_with s x.
Proof.
  split.
  - induction s as [|c s IH]; cbn [endswith].
    + destruct (String.eqb EmptyString x) eqn:E; [|discriminate].
      intros _. apply String.eqb_eq in E. exists EmptyString. now subst.
    + destruct (String.eqb (String c s) x) eqn:E.
      * intros _. apply String.eqb_eq in E. exists EmptyString. now subst.
      * intros H. destruct (IH H) as [p Hp]. exists (String c p).
        simpl. now rewrite Hp.
  - intros [p Hp]. subst s. induction p as [|c p IH].
    + simpl. destruct x; cbn [endswith]; now rewrite String.eqb_refl.
    + cbn [append endswith]. rewrite IH. now destruct (String.eqb _ x).
Qed.

Lemma creation_endpoint_spec (endpoint : string) :
  creation_endpoint endpoint = true <->
  ends_with endpoint "stories" \/ ends_with endpoint "epics" \/
  ends_with endpoint "objectives".
Proof.
  unfold creation_endpoint. simpl. rewrite !orb_true_iff, !endswith_spec.
  intuition discriminate.
Qed.

(** ** API client *)

Lemma string_in_GET_POST (method : string) :
  string_in method ["GET"; "POST"] = false <-> method <> "GET" /\ method <> "POST".
Proof.
  unfold string_in. simpl. rewrite !orb_false_iff, !String.eqb_neq. tauto.
Qed.

(** Once both safety checks pass, the credential is read and the request is
    sent. *)
Lemma make_shortcut_request_allowed (w : world) (method endpoint : string)
    (json params : option dict) (l : log) :
  string_in method ["GET"; "POST"] = true ->
  String.eqb method "POST" && negb (creation_endpoint endpoint) = false ->
  make_shortcut_request w method endpoint json params l =
  match token_value w with
  | None => (Raises (ValueError token_not_set), l)
  | Some token => send w (build_request token method endpoint json params) l
  end.
Proof.
  intros Hm Hp. unfold make_shortcut_request. rewrite Hm, Hp. simpl.
  now destruct (token_value w).
Qed.

Lemma send_answer (w : world) (r : http_request) (l : log) :
  send w r l = (answer_of (remote w l r), (l ++ [r])%list).
Proof. unfold send, answer_of. now destruct (remote w l r). Qed.

Lemma send_not_policy (w : world) (r : http_request) (l : log) (e : exn) :
  fst (send w r l) = Raises e -> ~ PolicyViolation e.
Proof.
  unfold send. simpl. intros H [[m Hm]|[ep Hep]]; subst e;
    destruct (remote w l r); discriminate.
Qed.

Lemma token_not_set_not_policy : ~ PolicyViolation (ValueError token_not_set).
Proof.
  intros [[m Hm]|[ep Hep]]; unfold token_not_set, method_not_allowed, post_not_allowed in *;
    simpl in *; congruence.
Qed.

(** ** The dispatcher is its plan *)

Ltac outcome_cases :=
  repeat match goal with
         | |- context [match ?x with Returns _ => _ | Raises _ => _ end] =>
           destruct x; cbn [obind]
         | |- context [if ?b then _ else _] => destruct b
         end;
  try reflexivity.

Lemma bind_lift_eq {A B} (m : io A) (k : A -> io B) (f : A -> outcome B) (l : log) :
  (forall a l', k a l' = (f a, l')) ->
  bind m k l = bind m (fun a => lift (f a)) l.
Proof.
  intros H. unfold bind, lift. destruct (m l) as [[a|e] l']; [apply H | reflexivity].
Qed.

Lemma dispatch_plan (w : world) (tool : string) (arguments : dict) (l : log) :
  dispatch w tool arguments l = run_plan w (plan_of tool arguments) l.
Proof.
  unfold dispatch, plan_of.
  repeat match goal with
         | |- context [if String.eqb tool ?s then _ else _] =>
           destruct (String.eqb tool s)
         end;
    cbn [run_plan plan_method plan_endpoint plan_json plan_params plan_format];
    try reflexivity;
    try (apply bind_lift_eq; intros a l';
         unfold search_stories_format, guarded_listing_format, listing_format,
           bind, lift, ret;
         now outcome_cases).
  - (* create-story *)
    unfold bind at 1. unfold lift at 1.
    destruct (arg_item arguments "name"); cbn [obind]; [|reflexivity].
    destruct (arg_item arguments "description"); cbn [obind]; [|reflexivity].
    destruct (arg_item arguments "story_type"); cbn [obind]; [|reflexivity].
    destruct (arg_item arguments "project_id"); cbn [obind run_plan]; [|reflexivity].
    cbn [plan_method plan_endpoint plan_json plan_params plan_format].
    apply bind_lift_eq. intros x l'. unfold created_format, bind, lift, ret.
    now destruct (format_story x).
  - (* create-objective *)
    unfold bind at 1. unfold lift at 1.
    destruct (arg_item arguments "name"); cbn [obind]; [|reflexivity].
    destruct (arg_item arguments "description"); cbn [obind]; [|reflexivity].
    destruct (arg_item arguments "status"); cbn [obind run_plan]; [|reflexivity].
    cbn [plan_method plan_endpoint plan_json plan_params plan_format].
    apply bind_lift_eq. intros x l'. unfold created_format, bind, lift, ret.
    now destruct (format_objective x).
  - (* create-epic *)
    unfold bind at 1. unfold lift at 1.
    destruct (arg_item arguments "name"); cbn [obind]; [|reflexivity].
    destruct (arg_item arguments "description"); cbn [obind run_plan]; [|reflexivity].
    cbn [plan_method plan_endpoint plan_json plan_params plan_format].
    apply bind_lift_eq. intros x l'. unfold created_format, bind, lift, ret.
    now destruct (format_epic x).
Qed.

Ltac tool_cases tool :=
  repeat match goal with
         | |- context [if String.eqb tool ?s then _ else _] =>
           let E := fresh "E" in destruct (String.eqb tool s) eqn:E
         | H : context [if String.eqb tool ?s then _ else _] |- _ =>
           let E := fresh "E" in destruct (String.eqb tool s) eqn:E
         end.

Ltac argument_cases H arguments :=
  repeat match type of H with
         | context [lookup ?k arguments] =>
           destruct (lookup k arguments); cbn [obind] in H
         end.

(** Every request a plan makes passes both safety checks. *)
Lemma plan_of_allowed (tool : string) (arguments : dict) (p : plan) :
  plan_of tool arguments = Returns p ->
  string_in (plan_method p) ["GET"; "POST"] = true /\
  String.eqb (plan_method p) "POST" && negb (creation_endpoint (plan_endpoint p)) = false.
Proof.
  unfold plan_of, arg_item, getitem. intros H. tool_cases tool;
    argument_cases H arguments; try discriminate;
    injection H as <-; split; reflexivity.
Qed.

(** Reading the arguments fails only with the [KeyError] of a strict
    lookup, or with the error of the final [else]. *)
Lemma plan_of_raises (tool : string) (arguments : dict) (e : exn) :
  plan_of tool arguments = Raises e ->
  (exists key, e = KeyError key) \/ e = ValueError ("Unknown tool: " ++ tool).
Proof.
  unfold plan_of, arg_item, getitem. intros H. tool_cases tool;
    argument_cases H arguments; try discriminate;
    injection H as <-; eauto.
Qed.

Lemma run_plan_returns (w : world) (p : plan) (tool : string) (arguments : dict) (l : log) :
  plan_of tool arguments = Returns p ->
  run_plan w (Returns p) l =
  match token_value w with
  | None => (Raises (ValueError token_not_set), l)
  | Some token =>
    let r := build_request token (plan_method p) (plan_endpoint p)
                           (plan_json p) (plan_params p) in
    (obind (answer_of (remote w l r)) (plan_format p), (l ++ [r])%list)
  end.
Proof.
  intros H. destruct (plan_of_allowed _ _ _ H) as [Hm Hp].
  unfold run_plan, bind. rewrite (make_shortcut_request_allowed w _ _ _ _ l Hm Hp).
  destruct (token_value w) as [token|]; [|reflexivity].
  rewrite send_answer. cbn zeta.
  now destruct (answer_of _).
Qed.

(** [handle_call_tool] on a map that is not empty: the plan is run and the
    [except] clause is applied to what it gives. *)
Lemma handle_call_tool_plan (w : world) (tool : string) (kv : string * json)
    (rest : dict) (l : log) :
  handle_call_tool w tool (@Some dict (kv :: rest)) l =
  (caught (fst (run_plan w (plan_of tool (kv :: rest)) l)),
   snd (run_plan w (plan_of tool (kv :: rest)) l)).
Proof.
  unfold handle_call_tool, try_except_HTTPError. rewrite dispatch_plan.
  destruct (run_plan w _ l) as [[blocks|[]] l']; reflexivity.
Qed.

Lemma handle_call_tool_refused (w : world) (tool : string) (kv : string * json)
    (rest : dict) (l : log) (e : exn) :
  plan_of tool (kv :: rest) = Raises e ->
  handle_call_tool w tool (@Some dict (kv :: rest)) l = (Raises e, l).
Proof.
  intros H. rewrite handle_call_tool_plan, H. cbn [run_plan raise fst snd].
  destruct (plan_of_raises _ _ _ H) as [[key ->]| ->]; reflexivity.
Qed.

Lemma handle_call_tool_planned (w : world) (tool : string) (kv : string * json)
    (rest : dict) (l : log) (p : plan) :
  plan_of tool (kv :: rest) = Returns p ->
  handle_call_tool w tool (@Some dict (kv :: rest)) l =
  match token_value w with
  | None => (Raises (ValueError token_not_set), l)
  | Some token =>
    let r := build_request token (plan_method p) (plan_endpoint p)
                           (plan_json p) (plan_params p) in
    (caught (obind (answer_of (remote w l r)) (plan_format p)), (l ++ [r])%list)
  end.
Proof.
  intros H. rewrite handle_call_tool_plan, H, (run_plan_returns w _ _ _ l H).
  now destruct (token_value w).
Qed.

Lemma log_grows (l : log) (r : http_request) : (l ++ [r])%list <> l.
Proof.
  intros H. apply (f_equal (@length _)) in H. rewrite length_app in H.
  simpl in H. lia.
Qed.

(** ** Formatting *)

Lemma omap_accepts (format : json -> outcome string) (records : list json) :
  Forall (accepts format) records ->
  exists blocks,
    omap format records = Returns blocks /\
    Forall2 (fun record block => format record = Returns block) records blocks.
Proof.
  induction 1 as [|record rest [block Hb] _ (blocks & Hm & HF)].
  - exists []. split; [reflexivity | constructor].
  - exists (block :: blocks). split.
    + simpl. now rewrite Hb, Hm.
    + now constructor.
Qed.


(** A story record is formatted, and its block opens with its [id]. *)
Lemma format_story_record (story : json) :
  story_record story = true ->
  exists id tail,
    getitem story "id" = Returns id /\
    format_story story = Returns ("Story " ++ str id ++ ": " ++ tail).
Proof.
  destruct story as [| | | | | |fields]; try discriminate.
  unfold story_record, has_key, format_story, getitem, get.
  destruct (lookup "id" fields) as [id|]; [|discriminate].
  destruct (lookup "name" fields) as [name|]; [|discriminate].
  cbn [andb obind].
  destruct (lookup "story_type" fields), (lookup "description" fields),
    (lookup "app_url" fields);
    (destruct (lookup "workflow_state" fields) as [[| | | | | |state]|];
     try discriminate; intros _; cbn [obind];
     [destruct (lookup "name" state)|];
     exists id; eexists; (split; [reflexivity|]); cbn [obind]; reflexivity).
Qed.

Lemma story_record_accepted (story : json) :
  story_record story = true -> accepts format_story story.
Proof.
  intros H. destruct (format_story_record story H) as (id & tail & _ & E).
  eexists. exact E.
Qed.

Lemma Forall_firstn_of {A} (P : A -> Prop) (n : nat) (xs : list A) :
  Forall P xs -> Forall P (firstn n xs).
Proof.
  intros H. revert n. induction H as [|x xs Hx _ IH]; intros [|n]; simpl;
    constructor; auto.
Qed.




Lemma fifteen_stories_accepted : Forall (accepts format_story) fifteen_stories.
Proof.
  unfold fifteen_stories. cbn [map].
  repeat constructor; apply story_record_accepted; reflexivity.
Qed.


(** ** What formatting can raise *)

Lemma obind_raises {A B} (m : outcome A) (k : A -> outcome B) (e : exn) :
  obind m k = Raises e ->
  m = Raises e \/ exists a, m = Returns a /\ k a = Raises e.
Proof.
  destruct m as [a|e']; cbn [obind]; intros H; [right; eauto | left].
  now injection H as ->.
Qed.

Lemma getitem_fault (v : json) (k : string) (e : exn) :
  getitem v k = Raises e -> shape_fault e.
Proof.
  destruct v as [| | | | | |fields]; cbn [getitem];
    try (intros [= <-]; exact I).
  destruct (lookup k fields); [discriminate | intros [= <-]; exact I].
Qed.

Lemma get_fault (v : json) (k : string) (default : json) (e : exn) :
  get v k default = Raises e -> shape_fault e.
Proof.
  destruct v as [| | | | | |fields]; cbn [get];
    try (intros [= <-]; exact I).
  destruct (lookup k fields); discriminate.
Qed.

Lemma iterate_fault (v : json) (e : exn) : iterate v = Raises e -> shape_fault e.
Proof. destruct v; cbn [iterate]; try discriminate; intros [= <-]; exact I. Qed.

Lemma slice10_fault (v : json) (e : exn) : slice10 v = Raises e -> shape_fault e.
Proof. destruct v; cbn [slice10]; try discriminate; intros [= <-]; exact I. Qed.

Lemma omap_fault {A B} (f : A -> outcome B) (xs : list A) (e : exn) :
  (forall x e', f x = Raises e' -> shape_fault e') ->
  omap f xs = Raises e -> shape_fault e.
Proof.
  intros Hf. induction xs as [|x xs IH]; cbn [omap]; [discriminate|].
  intros H. apply obind_raises in H as [H|(y & _ & H)]; [exact (Hf x e H)|].
  apply obind_raises in H as [H|(ys & _ & H)]; [exact (IH H) | discriminate H].
Qed.

Ltac fault :=
  repeat match goal with
         | H : obind _ _ = Raises _ |- _ =>
           apply obind_raises in H as [H|(? & _ & H)]
         | H : getitem _ _ = Raises _ |- _ => exact (getitem_fault _ _ _ H)
         | H : get _ _ _ = Raises _ |- _ => exact (get_fault _ _ _ _ H)
         | H : iterate _ = Raises _ |- _ => exact (iterate_fault _ _ H)
         | H : slice10 _ = Raises _ |- _ => exact (slice10_fault _ _ H)
         | H : Returns _ = Raises _ |- _ => discriminate H
         end.

Lemma format_objective_fault (v : json) (e : exn) :
  format_objective v = Raises e -> shape_fault e.
Proof. unfold format_objective. intros H. fault. Qed.

Lemma format_epic_fault (v : json) (e : exn) :
  format_epic v = Raises e -> shape_fault e.
Proof. unfold format_epic. intros H. fault. Qed.

Lemma format_story_fault (v : json) (e : exn) :
  format_story v = Raises e -> shape_fault e.
Proof. unfold format_story. intros H. fault. Qed.

Lemma format_project_fault (v : json) (e : exn) :
  format_project v = Raises e -> shape_fault e.
Proof. unfold format_project. intros H. fault. Qed.

Lemma format_state_fault (v : json) (e : exn) :
  format_state v = Raises e -> shape_fault e.
Proof. unfold format_state. intros H. fault. Qed.

Lemma format_workflow_fault (v : json) (e : exn) :
  format_workflow v = Raises e -> shape_fault e.
Proof.
  unfold format_workflow. intros H. fault.
  exact (omap_fault format_state _ e format_state_fault H).
Qed.

Lemma listing_format_fault (header : string) (format : json -> outcome string)
    (v : json) (e : exn) :
  (forall x e', format x = Raises e' -> shape_fault e') ->
  listing_format header format v = Raises e -> shape_fault e.
Proof.
  intros Hf. unfold listing_format. intros H. fault.
  exact (omap_fault format _ e Hf H).
Qed.

Lemma guarded_listing_format_fault (none_found header : string)
    (format : json -> outcome string) (v : json) (e : exn) :
  (forall x e', format x = Raises e' -> shape_fault e') ->
  guarded_listing_format none_found header format v = Raises e -> shape_fault e.
Proof.
  intros Hf. unfold guarded_listing_format.
  destruct (negb (truthy v)); [discriminate|].
  apply listing_format_fault, Hf.
Qed.

Lemma created_format_fault (header : string) (format : json -> outcome string)
    (v : json) (e : exn) :
  (forall x e', format x = Raises e' -> shape_fault e') ->
  created_format header format v = Raises e -> shape_fault e.
Proof.
  intros Hf. unfold created_format. intros H. fault. exact (Hf v e H).
Qed.

Lemma search_stories_format_fault (query v : json) (e : exn) :
  search_stories_format query v = Raises e -> shape_fault e.
Proof.
  unfold search_stories_format. intros H.
  apply obind_raises in H as [H|(stories & _ & H)]; [fault|].
  destruct (negb (truthy stories)); [discriminate H|]. fault.
  exact (omap_fault format_story _ e format_story_fault H).
Qed.

(** Formatting an answer raises nothing but a shape fault. *)
Lemma plan_format_fault (tool : string) (arguments : dict) (p : plan)
    (v : json) (e : exn) :
  plan_of tool arguments = Returns p ->
  plan_format p v = Raises e -> shape_fault e.
Proof.
  unfold plan_of, arg_item, getitem. intros H. tool_cases tool;
    argument_cases H arguments; try discriminate;
    injection H as <-; cbn [plan_format].
  - apply search_stories_format_fault.
  - apply created_format_fault, format_story_fault.
  - apply listing_format_fault, format_project_fault.
  - apply listing_format_fault, format_workflow_fault.
  - apply guarded_listing_format_fault, format_objective_fault.
  - apply created_format_fault, format_objective_fault.
  - apply guarded_listing_format_fault, format_epic_fault.
  - apply created_format_fault, format_epic_fault.
Qed.




(** ** Missing arguments of the creation tools *)

Lemma first_missing_plan (u : dict) (tool : string) (arguments : dict) (key : string) :
  In tool creation_tools ->
  first_missing (handle_list_tools u) tool arguments = Some key ->
  plan_of tool arguments = Raises (KeyError key).
Proof.
  unfold creation_tools. cbn [In].
  intros [<-|[<-|[<-|[]]]]; unfold first_missing;
    cbn [find_tool handle_list_tools find name inputSchema String.eqb Ascii.eqb Bool.eqb];
    unfold required_fields, schema;
    cbn [getitem lookup String.eqb Ascii.eqb Bool.eqb map strings_of flat_map app find];
    unfold has_key, plan_of, arg_item, getitem;
    cbn [String.eqb Ascii.eqb Bool.eqb];
    repeat match goal with
           | |- context [lookup ?k arguments] => destruct (lookup k arguments)
           end;
    cbn [negb obind]; intros [= <-]; reflexivity.
Qed.




(** ** The safety policy *)

(** C2. Whatever the endpoint, body, query, credential and remote service,
    a method other than GET and POST makes [make_shortcut_request] raise the
    policy error for that method, and the log of sent requests is left as it
    was: nothing is sent. *)
Theorem method_outside_GET_POST_is_refused (w : world) (method endpoint : string)
    (json params : option dict) (l : log) :
  method <> "GET" -> method <> "POST" ->
  make_shortcut_request w method endpoint json params l =
    (Raises (ValueError (method_not_allowed method)), l) /\
  PolicyViolation (ValueError (method_not_allowed method)).
Proof.
  intros HG HP. split.
  - unfold make_shortcut_request.
    assert (E : string_in method ["GET"; "POST"] = false)
      by (apply string_in_GET_POST; tauto).
    now rewrite E.
  - left. now exists method.
Qed.

(** C3. A POST fails the policy exactly when its endpoint ends with none of
    "stories", "epics", "objectives"; POST "workflows" fails it and POST
    "stories" does not. *)
Theorem post_refused_iff_not_creation_suffix (w : world) (endpoint : string)
    (json params : option dict) (l : log) :
  ((exists e,
      fst (make_shortcut_request w "POST" endpoint json params l) = Raises e /\
      PolicyViolation e) <->
   ~ (ends_with endpoint "stories" \/ ends_with endpoint "epics" \/
      ends_with endpoint "objectives")) /\
  make_shortcut_request w "POST" "workflows" json params l =
    (Raises (ValueError (post_not_allowed "workflows")), l) /\
  (forall e, fst (make_shortcut_request w "POST" "stories" json params l) = Raises e ->
             ~ PolicyViolation e).
Proof.
  assert (G : forall ep,
    creation_endpoint ep = true ->
    forall e, fst (make_shortcut_request w "POST" ep json params l) = Raises e ->
              ~ PolicyViolation e).
  { intros ep Hc e. rewrite make_shortcut_request_allowed; [|reflexivity|].
    - destruct (token_value w); [apply send_not_policy|].
      simpl. intros [= <-]. apply token_not_set_not_policy.
    - now rewrite Hc. }
  split; [|split].
  - rewrite <- creation_endpoint_spec. split.
    + intros (e & He & Hpol) Hc. exact (G endpoint Hc e He Hpol).
    + intros Hc. destruct (creation_endpoint endpoint) eqn:E; [congruence|].
      exists (ValueError (post_not_allowed endpoint)). split.
      * unfold make_shortcut_request. simpl. now rewrite E.
      * right. now exists endpoint.
  - reflexivity.
  - apply G. reflexivity.
Qed.

(** C10. The endpoint check of a POST is a suffix test and nothing more: any
    endpoint that ends with "stories", "epics" or "objectives" passes it, so
    the call goes on to the credential check and, with a credential, sends
    the POST to that endpoint. *)
Theorem post_policy_is_suffix_matching (w : world) (endpoint : string)
    (json params : option dict) (l : log) :
  ends_with endpoint "stories" \/ ends_with endpoint "epics" \/
  ends_with endpoint "objectives" ->
  make_shortcut_request w "POST" endpoint json params l =
    match token_value w with
    | None => (Raises (ValueError token_not_set), l)
    | Some token => send w (build_request token "POST" endpoint json params) l
    end /\
  (forall e, fst (make_shortcut_request w "POST" endpoint json params l) = Raises e ->
             ~ PolicyViolation e).
Proof.
  intros H. apply creation_endpoint_spec in H.
  assert (E : make_shortcut_request w "POST" endpoint json params l =
              match token_value w with
              | None => (Raises (ValueError token_not_set), l)
              | Some token => send w (build_request token "POST" endpoint json params) l
              end).
  { apply make_shortcut_request_allowed; [reflexivity | now rewrite H]. }
  split; [exact E|].
  intros e. rewrite E. destruct (token_value w); [apply send_not_policy|].
  simpl. intros [= <-]. apply token_not_set_not_policy.
Qed.

Lemma method_outside_GET_POST_is_refused_witness :
  make_shortcut_request (fixture (Some "token") (Json2xx JNull))
    "DELETE" "stories/1" None None [] =
    (Raises (ValueError (method_not_allowed "DELETE")), []) /\
  make_shortcut_request (fixture None (Json2xx JNull))
    "PUT" "stories/1" None None [] =
    (Raises (ValueError (method_not_allowed "PUT")), []).
Proof.
  split.
  - apply (method_outside_GET_POST_is_refused
             (fixture (Some "token") (Json2xx JNull)) "DELETE" "stories/1" None None []);
      discriminate.
  - apply (method_outside_GET_POST_is_refused
             (fixture None (Json2xx JNull)) "PUT" "stories/1" None None []);
      discriminate.
Defined.

Lemma post_policy_is_suffix_matching_witness :
  make_shortcut_request (fixture (Some "token") (Json2xx JNull))
    "POST" "search/stories" None None [] =
    (Returns JNull, [build_request "token" "POST" "search/stories" None None]).
Proof.
  apply (post_policy_is_suffix_matching
           (fixture (Some "token") (Json2xx JNull)) "search/stories" None None []).
  left. exists "search/". reflexivity.
Defined.

(** ** The dispatcher: what it refuses *)

(** C5, as the code has it. With [description] left out, [create-epic]
    raises the [KeyError] of the missing argument out of the dispatcher, in
    every world; no content block is returned and nothing is sent. *)
Theorem create_epic_without_description_raises (w : world) (l : log) :
  handle_call_tool w "create-epic" (Some [("name", JStr "E")]) l =
    (Raises (KeyError "description"), l).
Proof. reflexivity. Qed.

(** C5 as stated fails: the call returns no error Text block, it raises. *)
Lemma create_epic_without_description_returns_no_block :
  ~ exists blocks,
      fst (handle_call_tool (fixture (Some "token") (Json2xx JNull))
             "create-epic" (Some [("name", JStr "E")]) []) = Returns blocks.
Proof. intros [blocks H]. discriminate H. Qed.

Lemma not_in_catalog (u : dict) (tool : string) :
  ~ In tool (map name (handle_list_tools u)) ->
  plan_of tool = fun _ => Raises (ValueError ("Unknown tool: " ++ tool)).
Proof.
  intros H. unfold plan_of.
  repeat match goal with
         | |- context [if String.eqb tool ?s then _ else _] =>
           let E := fresh "E" in
           destruct (String.eqb tool s) eqn:E;
             [apply String.eqb_eq in E; exfalso; apply H; subst tool; simpl; tauto|]
         end.
  reflexivity.
Qed.

(** C6, as the code has it. A name outside the catalog never reaches the
    API client: nothing is sent. With a map that is not empty the call
    raises "Unknown tool: <name>"; with an absent or empty map the guard
    comes first and the call raises "Missing arguments". *)
Theorem unknown_tool_is_refused (w : world) (u : dict) (tool : string)
    (arguments : option dict) (l : log) :
  ~ In tool (map name (handle_list_tools u)) ->
  handle_call_tool w tool arguments l =
    (Raises (ValueError match arguments with
                        | None | Some [] => "Missing arguments"
                        | Some _ => "Unknown tool: " ++ tool
                        end), l).
Proof.
  intros H. destruct arguments as [[|kv rest]|]; try reflexivity.
  apply handle_call_tool_refused. now rewrite (not_in_catalog u tool H).
Qed.

Lemma unknown_tool_is_refused_witness :
  handle_call_tool (fixture (Some "token") (Json2xx JNull))
    "unknown-tool" (Some some_arguments) [] =
    (Raises (ValueError "Unknown tool: unknown-tool"), []).
Proof.
  apply (unknown_tool_is_refused (fixture (Some "token") (Json2xx JNull))
           [] "unknown-tool" (Some some_arguments) []).
  simpl. intuition discriminate.
Defined.

(** C6 as stated fails at its own example: with the empty map the error is
    the guard's, which does not carry the name. *)
Lemma unknown_tool_with_empty_map :
  handle_call_tool (fixture (Some "token") (Json2xx JNull))
    "unknown-tool" (Some []) [] =
    (Raises (ValueError "Missing arguments"), []) /\
  ~ UnknownTool "unknown-tool" (ValueError "Missing arguments").
Proof. split; [reflexivity | intros H; discriminate H]. Qed.

(** ** The dispatcher: what it catches *)



(** ** The dispatcher: what it takes for invalid input *)






(** ** The dispatcher: empty results *)

(** C7, at the inputs where it fails. On an empty list [search-stories],
    [list-objectives] and [list-epics] answer with a notice that nothing was
    found; [list-projects] and [list-workflows] have no such branch and
    answer with their bare heading. *)
Theorem empty_lists_tool_by_tool :
  fst (handle_call_tool (fixture (Some "token") (Json2xx (JObj [("data", JList [])])))
         "search-stories" (Some [("query", JStr "login bug")]) []) =
    Returns (text_block "No stories found matching query: login bug") /\
  fst (handle_call_tool (fixture (Some "token") (Json2xx (JList [])))
         "list-objectives" (Some some_arguments) []) =
    Returns (text_block "No objectives found") /\
  fst (handle_call_tool (fixture (Some "token") (Json2xx (JList [])))
         "list-epics" (Some some_arguments) []) =
    Returns (text_block "No epics found") /\
  fst (handle_call_tool (fixture (Some "token") (Json2xx (JList [])))
         "list-projects" (Some some_arguments) []) =
    Returns (text_block ("Available projects:" ++ nl ++ nl)) /\
  fst (handle_call_tool (fixture (Some "token") (Json2xx (JList [])))
         "list-workflows" (Some some_arguments) []) =
    Returns (text_block ("Available workflows and states:" ++ nl ++ nl)).
Proof. repeat split. Qed.

(** ** The dispatcher: creating and listing *)

(** C9. With a credential, [create-story] on name "A", description "B",
    story_type "bug", project_id 7 makes one request and no other, whatever
    comes of it: a POST to the stories endpoint whose JSON body is those
    four fields.  When the remote answers with a story record, the call
    returns one text block, "Created new story:" followed by the formatted
    story, and the block shows the [id] of the answered record. *)
Theorem create_story_posts_once_and_shows_the_id (w : world) (token : string)
    (l : log) :
  token_value w = Some token ->
  snd (handle_call_tool w "create-story"
         (Some [("name", JStr "A"); ("description", JStr "B");
                ("story_type", JStr "bug"); ("project_id", JInt 7)]) l) =
    (l ++ [create_story_request token])%list /\
  forall new_story,
    remote w l (create_story_request token) = Json2xx new_story ->
    story_record new_story = true ->
    exists id formatted,
      getitem new_story "id" = Returns id /\
      format_story new_story = Returns formatted /\
      fst (handle_call_tool w "create-story"
             (Some [("name", JStr "A"); ("description", JStr "B");
                    ("story_type", JStr "bug"); ("project_id", JInt 7)]) l) =
        Returns [ {| type := "text";
                     text := "Created new story:" ++ nl ++ nl ++ formatted |} ] /\
      contains "Created new story" ("Created new story:" ++ nl ++ nl ++ formatted) /\
      contains (str id) ("Created new story:" ++ nl ++ nl ++ formatted).
Proof.
  intros Htoken.
  pose proof (handle_call_tool_planned w "create-story" ("name", JStr "A")
                [("description", JStr "B"); ("story_type", JStr "bug");
                 ("project_id", JInt 7)] l _ eq_refl) as H.
  rewrite Htoken in H.
  cbn [plan_method plan_endpoint plan_json plan_params plan_format] in H.
  change (build_request token "POST" "stories"
            (Some [("name", JStr "A"); ("description", JStr "B");
                   ("story_type", JStr "bug"); ("project_id", JInt 7)]) None)
    with (create_story_request token) in H.
  cbn zeta in H. split.
  - exact (f_equal snd H).
  - intros new_story Hremote Hrecord.
    destruct (format_story_record new_story Hrecord) as (id & tail & Hid & Hformat).
    exists id, ("Story " ++ str id ++ ": " ++ tail).
    split; [exact Hid | split; [exact Hformat | split; [|split]]].
    + apply (f_equal fst) in H. cbn [fst] in H. rewrite Hremote in H.
      cbn [answer_of obind] in H. unfold created_format in H.
      rewrite Hformat in H. exact H.
    + exists EmptyString. eexists. reflexivity.
    + exists ("Created new story:" ++ nl ++ nl ++ "Story "). eexists. reflexivity.
Qed.

Lemma create_story_posts_once_and_shows_the_id_witness :
  snd (handle_call_tool (fixture (Some "token") (StatusError 500 "Server Error"))
         "create-story" (Some story_arguments) []) =
    [create_story_request "token"] /\
  exists formatted,
    handle_call_tool (fixture (Some "token") (Json2xx (story_number 42)))
      "create-story" (Some story_arguments) [] =
      (Returns [ {| type := "text";
                    text := "Created new story:" ++ nl ++ nl ++ formatted |} ],
       [create_story_request "token"]) /\
    contains "42" ("Created new story:" ++ nl ++ nl ++ formatted).
Proof.
  split.
  - exact (proj1 (create_story_posts_once_and_shows_the_id
                    (fixture (Some "token") (StatusError 500 "Server Error"))
                    "token" [] eq_refl)).
  - destruct (create_story_posts_once_and_shows_the_id
                (fixture (Some "token") (Json2xx (story_number 42))) "token" []
                eq_refl) as [Hlog Hanswer].
    destruct (Hanswer (story_number 42) eq_refl eq_refl)
      as (id & formatted & Hid & _ & Hcall & _ & Hshown).
    injection Hid as <-.
    exists formatted. split; [|exact Hshown].
    apply injective_projections; [exact Hcall | exact Hlog].
Defined.




(** * Further properties *)

(** ** API client *)

Lemma permitted_checks (method endpoint : string) :
  permitted method endpoint <->
  string_in method ["GET"; "POST"] = true /\
  String.eqb method "POST" && negb (creation_endpoint endpoint) = false.
Proof.
  unfold permitted. rewrite <- creation_endpoint_spec. split.
  - intros [-> | [-> H]]; [split; reflexivity|].
    split; [reflexivity|]. now rewrite H.
  - intros [Hm Hp]. unfold string_in in Hm. cbn [existsb] in Hm.
    destruct (String.eqb method "GET") eqn:G.
    + left. now apply String.eqb_eq.
    + destruct (String.eqb method "POST") eqn:P; [|discriminate Hm].
      right. split; [now apply String.eqb_eq|].
      now destruct (creation_endpoint endpoint).
Qed.

Lemma token_value_some (w : world) (token : string) :
  token_value w = Some token <->
  SHORTCUT_API_TOKEN w = Some token /\ token <> EmptyString.
Proof.
  unfold token_value. destruct (SHORTCUT_API_TOKEN w) as [t|].
  - destruct (String.eqb t EmptyString) eqn:E.
    + apply String.eqb_eq in E. subst t. split; [discriminate|].
      intros [[= <-] H]. now elim H.
    + apply String.eqb_neq in E. split.
      * intros [= <-]. now split.
      * now intros [[= <-] _].
  - split; [discriminate | now intros [H _]].
Qed.

Lemma token_value_none (w : world) :
  token_value w = None <->
  SHORTCUT_API_TOKEN w = None \/ SHORTCUT_API_TOKEN w = Some EmptyString.
Proof.
  unfold token_value. destruct (SHORTCUT_API_TOKEN w) as [t|].
  - destruct (String.eqb t EmptyString) eqn:E.
    + apply String.eqb_eq in E. subst t. tauto.
    + apply String.eqb_neq in E. split; [discriminate|].
      intros [H|[= H]]; [discriminate H | now elim E].
  - tauto.
Qed.

(** X1. A permitted request made with a credential is handed to the HTTP
    client once, as built from the arguments: the method, the base URL
    joined to the endpoint by a slash, the content-type and token headers,
    the body and query as given, the timeout of 30.  The call returns the
    decoded body of a 2xx answer, raises [HTTPError] for a status or
    transport failure and [JSONDecodeError] for a 2xx body that is not
    JSON, and lets any other exception of the client or of the decoder
    through as it is. *)
Theorem permitted_request_is_sent_as_built (w : world) (token method endpoint : string)
    (json params : option dict) (l : log) :
  permitted method endpoint ->
  SHORTCUT_API_TOKEN w = Some token -> token <> EmptyString ->
  make_shortcut_request w method endpoint json params l =
    (match remote w l (request_for token method endpoint json params) with
     | Json2xx body => Returns body
     | Undecodable2xx msg => Raises (JSONDecodeError msg)
     | StatusError _ msg => Raises (HTTPError msg)
     | TransportError msg => Raises (HTTPError msg)
     | Refused class msg => Raises (LibraryError class msg)
     | Unreadable2xx class msg => Raises (LibraryError class msg)
     end,
     (l ++ [request_for token method endpoint json params])%list).
Proof.
  intros Hp Ht Hne. apply permitted_checks in Hp as [Hm Hc].
  rewrite (make_shortcut_request_allowed w method endpoint json params l Hm Hc).
  assert (E : token_value w = Some token) by (apply token_value_some; now split).
  rewrite E. reflexivity.
Qed.

Lemma permitted_request_is_sent_as_built_witness :
  make_shortcut_request
    (fixture (Some "token") (Refused "InvalidURL" "Invalid non-printable ASCII character in URL"))
    "GET" (String "010"%char "stories") None None [] =
    (Raises (LibraryError "InvalidURL" "Invalid non-printable ASCII character in URL"),
     [request_for "token" "GET" (String "010"%char "stories") None None]).
Proof.
  apply (permitted_request_is_sent_as_built
           (fixture (Some "token")
              (Refused "InvalidURL" "Invalid non-printable ASCII character in URL"))
           "token" "GET" (String "010"%char "stories") None None []).
  - left. reflexivity.
  - reflexivity.
  - discriminate.
Defined.

(** X2. A permitted request made without a credential, the variable unset
    or set to the empty string, raises the "environment variable not set"
    error and nothing is sent. *)
Theorem missing_credential_sends_nothing (w : world) (method endpoint : string)
    (json params : option dict) (l : log) :
  permitted method endpoint ->
  SHORTCUT_API_TOKEN w = None \/ SHORTCUT_API_TOKEN w = Some EmptyString ->
  make_shortcut_request w method endpoint json params l =
    (Raises (ValueError "SHORTCUT_API_TOKEN environment variable not set"), l).
Proof.
  intros Hp Ht. apply permitted_checks in Hp as [Hm Hc].
  rewrite (make_shortcut_request_allowed w method endpoint json params l Hm Hc).
  apply token_value_none in Ht. now rewrite Ht.
Qed.

Lemma missing_credential_sends_nothing_witness :
  make_shortcut_request (fixture (Some EmptyString) (Json2xx JNull))
    "POST" "epics" (Some [("name", JStr "E")]) None [] =
    (Raises (ValueError "SHORTCUT_API_TOKEN environment variable not set"), []).
Proof.
  apply (missing_credential_sends_nothing
           (fixture (Some EmptyString) (Json2xx JNull))
           "POST" "epics" (Some [("name", JStr "E")]) None []).
  - right. split; [reflexivity|]. right. left. now exists EmptyString.
  - right. reflexivity.
Defined.

(** X3. [make_shortcut_request] calls the HTTP client exactly when the
    request is permitted and a credential is set, and then once; otherwise
    the log of calls is left as it was.  A request the policy refuses is
    never handed to the client, with or without a credential. *)
Theorem client_is_called_iff_permitted_and_credentialed (w : world)
    (method endpoint : string) (json params : option dict) (l : log) :
  ((exists r, snd (make_shortcut_request w method endpoint json params l) = (l ++ [r])%list)
   <->
   permitted method endpoint /\
   exists token, SHORTCUT_API_TOKEN w = Some token /\ token <> EmptyString) /\
  (snd (make_shortcut_request w method endpoint json params l) = l \/
   exists r, snd (make_shortcut_request w method endpoint json params l) = (l ++ [r])%list).
Proof.
  assert (C : (permitted method endpoint /\
               exists token, SHORTCUT_API_TOKEN w = Some token /\ token <> EmptyString /\
                 snd (make_shortcut_request w method endpoint json params l) =
                 (l ++ [request_for token method endpoint json params])%list) \/
              ((~ permitted method endpoint \/ token_value w = None) /\
               snd (make_shortcut_request w method endpoint json params l) = l)).
  { destruct (string_in method ["GET"; "POST"]) eqn:Hm.
    - destruct (String.eqb method "POST" && negb (creation_endpoint endpoint)) eqn:Hc.
      + right. split.
        * left. intros Hp. apply permitted_checks in Hp as [_ Hp]. congruence.
        * unfold make_shortcut_request. now rewrite Hm, Hc.
      + assert (Hp : permitted method endpoint) by (apply permitted_checks; now split).
        destruct (token_value w) as [token|] eqn:Ht.
        * left. split; [exact Hp|]. apply token_value_some in Ht as [Ht Hne].
          exists token. split; [exact Ht | split; [exact Hne|]].
          now rewrite (permitted_request_is_sent_as_built w token method endpoint
                         json params l Hp Ht Hne).
        * right. split; [now right|].
          rewrite (make_shortcut_request_allowed w method endpoint json params l Hm Hc).
          now rewrite Ht.
    - right. split.
      + left. intros Hp. apply permitted_checks in Hp as [Hp _]. congruence.
      + unfold make_shortcut_request. now rewrite Hm. }
  split.
  - split.
    + intros [r Hr]. destruct C as [(Hp & token & Ht & Hne & _)|[_ Hl]].
      * split; [exact Hp|]. now exists token.
      * rewrite Hl in Hr. symmetry in Hr. elim (log_grows l r Hr).
    + intros (Hp & token & Ht & Hne). destruct C as [(_ & t & _ & _ & Hs)|[[Hn|Hn] _]].
      * eauto.
      * contradiction.
      * assert (E : token_value w = Some token) by (apply token_value_some; now split).
        congruence.
  - destruct C as [(_ & t & _ & _ & Hs)|[_ Hl]]; [right; eauto | now left].
Qed.

(** ** Tool dispatcher: requests *)

Lemma obind_returns {A B} (m : outcome A) (k : A -> outcome B) (b : B) :
  obind m k = Returns b -> exists a, m = Returns a /\ k a = Returns b.
Proof. destruct m as [a|e]; cbn [obind]; [eauto | discriminate]. Qed.

Lemma plan_of_route (tool : string) (arguments : dict) (p : plan) :
  plan_of tool arguments = Returns p ->
  tool_route tool = Some (plan_method p, plan_endpoint p) /\
  permitted (plan_method p) (plan_endpoint p) /\
  (plan_method p = "GET" -> plan_json p = None) /\
  (plan_method p = "POST" ->
   plan_params p = None /\ exists body, plan_json p = Some body).
Proof.
  unfold plan_of, arg_item, getitem, tool_route, route_table. intros H.
  cbn [find fst snd].
  tool_cases tool; argument_cases H arguments; try discriminate;
    injection H as <-; cbn [plan_method plan_endpoint plan_json plan_params];
    (split; [reflexivity|]);
    (split; [first [ left; reflexivity
                   | right; split; [reflexivity|];
                     first [ left; now exists EmptyString
                           | right; left; now exists EmptyString
                           | right; right; now exists EmptyString ] ] |]);
    (split; [first [reflexivity | discriminate] |]);
    first [discriminate | intros _; split; [reflexivity | eauto]].
Qed.

(** X4. A call of [handle_call_tool] sends one request or none.  A request
    it sends is the one of its tool in the table of routes: GET for the
    search and list tools, with no JSON body; POST for the creation tools,
    with a JSON body and no query; always to one of six endpoints, each
    permitted by the safety policy. *)
Theorem dispatcher_sends_at_most_its_route (w : world) (tool : string)
    (arguments : option dict) (l : log) :
  (snd (handle_call_tool w tool arguments l) = l \/
   exists r, snd (handle_call_tool w tool arguments l) = (l ++ [r])%list) /\
  (forall r,
      snd (handle_call_tool w tool arguments l) = (l ++ [r])%list ->
      exists method endpoint,
        tool_route tool = Some (method, endpoint) /\
        permitted method endpoint /\
        req_method r = method /\
        req_url r = "https://api.app.shortcut.com/api/v3" ++ "/" ++ endpoint /\
        (method = "GET" -> req_json r = None) /\
        (method = "POST" -> req_params r = None /\ exists body, req_json r = Some body)).
Proof.
  destruct arguments as [[|kv rest]|].
  1, 3: (split; [now left|]; intros r H; symmetry in H; elim (log_grows l r H)).
  destruct (plan_of tool (kv :: rest)) as [p|e] eqn:P.
  - rewrite (handle_call_tool_planned w tool kv rest l p P).
    destruct (token_value w) as [token|].
    + cbn [snd]. split; [right; eauto|].
      intros r H. apply app_inv_head in H. injection H as <-.
      destruct (plan_of_route tool (kv :: rest) p P) as (Hr & Hp & Hg & Hpost).
      exists (plan_method p), (plan_endpoint p). cbn [req_method req_url req_json req_params].
      repeat split; auto; now apply Hpost.
    + split; [now left|]. intros r H. symmetry in H. elim (log_grows l r H).
  - rewrite (handle_call_tool_refused w tool kv rest l e P).
    split; [now left|]. intros r H. symmetry in H. elim (log_grows l r H).
Qed.

(** X5. Whatever [handle_call_tool] raises is one of: the guard's "Missing
    arguments", "Unknown tool: <name>", the missing-credential error, the
    [JSONDecodeError] of an answer that is not JSON, another exception of
    the HTTP client or the JSON decoder that is not an [httpx.HTTPError],
    or a fault of reading a value ([KeyError], [TypeError],
    [AttributeError]).  It never raises an [httpx.HTTPError]. *)
Theorem dispatcher_raises_only (w : world) (tool : string)
    (arguments : option dict) (l : log) (e : exn) :
  fst (handle_call_tool w tool arguments l) = Raises e ->
  e = ValueError "Missing arguments" \/
  e = ValueError ("Unknown tool: " ++ tool) \/
  e = ValueError "SHORTCUT_API_TOKEN environment variable not set" \/
  (exists msg, e = JSONDecodeError msg) \/
  (exists class msg, e = LibraryError class msg) \/
  shape_fault e.
Proof.
  destruct arguments as [[|kv rest]|].
  1, 3: (intros [= <-]; now left).
  destruct (plan_of tool (kv :: rest)) as [p|e0] eqn:P.
  - rewrite (handle_call_tool_planned w tool kv rest l p P).
    destruct (token_value w) as [token|]; [|intros [= <-]; tauto].
    cbn [fst]. destruct (remote w l _) as [body|msg|status msg|msg|class msg|class msg];
      cbn [answer_of obind caught]; try discriminate.
    + destruct (plan_format p body) as [blocks|e1] eqn:F; [discriminate|].
      pose proof (plan_format_fault tool (kv :: rest) p body e1 P F) as Hfault.
      destruct e1; try contradiction; cbn [caught]; intros [= <-]; tauto.
    + intros [= <-]. right. right. right. left. now exists msg.
    + intros [= <-]. right. right. right. right. left. now exists class, msg.
    + intros [= <-]. right. right. right. right. left. now exists class, msg.
  - rewrite (handle_call_tool_refused w tool kv rest l e0 P). intros [= <-].
    destruct (plan_of_raises _ _ _ P) as [[key ->]| ->]; [|tauto].
    right. right. right. right. right. exact I.
Qed.

Lemma dispatcher_raises_only_witness :
  fst (handle_call_tool
         (fixture (Some "token") (Unreadable2xx "ValueError" "Exceeds the limit"))
         "list-projects" (Some some_arguments) []) =
    Raises (LibraryError "ValueError" "Exceeds the limit") /\
  exists class msg,
    LibraryError "ValueError" "Exceeds the limit" = LibraryError class msg.
Proof.
  split; [reflexivity|].
  destruct (dispatcher_raises_only
              (fixture (Some "token") (Unreadable2xx "ValueError" "Exceeds the limit"))
              "list-projects" (Some some_arguments) []
              (LibraryError "ValueError" "Exceeds the limit") eq_refl)
    as [H|[H|[H|[[msg H]|[H|H]]]]]; try discriminate H; [exact H | contradiction].
Defined.

Lemma search_stories_format_block (query v : json) (blocks : list TextContent) :
  search_stories_format query v = Returns blocks -> exists s, blocks = text_block s.
Proof.
  unfold search_stories_format. intros H.
  apply obind_returns in H as (stories & _ & H).
  destruct (negb (truthy stories)); [injection H as <-; eauto|].
  apply obind_returns in H as (formatted & _ & H). injection H as <-. eauto.
Qed.

Lemma listing_format_block (header : string) (format : json -> outcome string)
    (v : json) (blocks : list TextContent) :
  listing_format header format v = Returns blocks -> exists s, blocks = text_block s.
Proof.
  unfold listing_format. intros H.
  apply obind_returns in H as (formatted & _ & H). injection H as <-. eauto.
Qed.

Lemma guarded_listing_format_block (none_found header : string)
    (format : json -> outcome string) (v : json) (blocks : list TextContent) :
  guarded_listing_format none_found header format v = Returns blocks ->
  exists s, blocks = text_block s.
Proof.
  unfold guarded_listing_format. destruct (negb (truthy v)).
  - intros [= <-]. eauto.
  - apply listing_format_block.
Qed.

Lemma created_format_block (header : string) (format : json -> outcome string)
    (v : json) (blocks : list TextContent) :
  created_format header format v = Returns blocks -> exists s, blocks = text_block s.
Proof.
  unfold created_format. intros H.
  apply obind_returns in H as (formatted & _ & H). injection H as <-. eauto.
Qed.

Lemma plan_format_block (tool : string) (arguments : dict) (p : plan)
    (v : json) (blocks : list TextContent) :
  plan_of tool arguments = Returns p ->
  plan_format p v = Returns blocks -> exists s, blocks = text_block s.
Proof.
  unfold plan_of, arg_item, getitem. intros H. tool_cases tool;
    argument_cases H arguments; try discriminate;
    injection H as <-; cbn [plan_format];
    first [ apply search_stories_format_block
          | apply created_format_block
          | apply listing_format_block
          | apply guarded_listing_format_block ].
Qed.

(** X6. Whenever [handle_call_tool] returns, it returns exactly one content
    block, of type "text". *)
Theorem dispatcher_returns_one_text_block (w : world) (tool : string)
    (arguments : option dict) (l : log) (blocks : list TextContent) :
  fst (handle_call_tool w tool arguments l) = Returns blocks ->
  exists s, blocks = [ {| type := "text"; text := s |} ].
Proof.
  destruct arguments as [[|kv rest]|]; try discriminate.
  destruct (plan_of tool (kv :: rest)) as [p|e0] eqn:P.
  - rewrite (handle_call_tool_planned w tool kv rest l p P).
    destruct (token_value w) as [token|]; [|discriminate].
    cbn [fst]. destruct (remote w l _) as [body|msg|status msg|msg|class msg|class msg];
      cbn [answer_of obind caught]; try discriminate;
      try (intros [= <-]; eexists; reflexivity).
    destruct (plan_format p body) as [blocks'|e1] eqn:F.
    + cbn [caught]. intros [= <-].
      exact (plan_format_block tool (kv :: rest) p body blocks' P F).
    + destruct e1; cbn [caught]; try discriminate. intros [= <-]. eexists; reflexivity.
  - rewrite (handle_call_tool_refused w tool kv rest l e0 P). discriminate.
Qed.

Lemma dispatcher_returns_one_text_block_witness :
  exists s,
    text_block ("Available projects:" ++ nl ++ nl) = [ {| type := "text"; text := s |} ].
Proof.
  apply (dispatcher_returns_one_text_block
           (fixture (Some "token") (Json2xx (JList [])))
           "list-projects" (Some some_arguments) []).
  reflexivity.
Defined.

Lemma in_catalog_plan (u : dict) (tool : string) (arguments : dict) :
  In tool (map name (handle_list_tools u)) ->
  plan_of tool arguments <> Raises (ValueError ("Unknown tool: " ++ tool)).
Proof.
  cbn [handle_list_tools map name In].
  intros H; repeat destruct H as [<-|H]; try contradiction;
    unfold plan_of, arg_item, getitem; cbn [String.eqb Ascii.eqb Bool.eqb];
    try discriminate;
    repeat match goal with
           | |- context [lookup ?k arguments] => destruct (lookup k arguments)
           end; cbn [obind]; discriminate.
Qed.

(** X7. The catalog and the dispatcher know the same tools: given a map
    that is not empty, [handle_call_tool] raises "Unknown tool: <name>"
    exactly for the names that [handle_list_tools] does not list. *)
Theorem unknown_tool_iff_not_listed (w : world) (u : dict) (tool : string)
    (kv : string * json) (rest : dict) (l : log) :
  fst (handle_call_tool w tool (Some (kv :: rest : dict)) l) =
    Raises (ValueError ("Unknown tool: " ++ tool)) <->
  ~ In tool (map name (handle_list_tools u)).
Proof.
  split.
  - intros H Hin. pose proof (in_catalog_plan u tool (kv :: rest) Hin) as Hplan.
    revert H. destruct (plan_of tool (kv :: rest)) as [p|e0] eqn:P.
    + rewrite (handle_call_tool_planned w tool kv rest l p P).
      destruct (token_value w) as [token|]; [|discriminate].
      cbn [fst]. destruct (remote w l _) as [body|msg|status msg|msg|class msg|class msg];
        cbn [answer_of obind caught]; try discriminate.
      destruct (plan_format p body) as [blocks|e1] eqn:F; [discriminate|].
      pose proof (plan_format_fault tool (kv :: rest) p body e1 P F) as Hfault.
      destruct e1; try contradiction; discriminate.
    + rewrite (handle_call_tool_refused w tool kv rest l e0 P).
      intros [= ->]. now elim Hplan.
  - intros H.
    rewrite (handle_call_tool_refused w tool kv rest l
               (ValueError ("Unknown tool: " ++ tool))); [reflexivity|].
    now rewrite (not_in_catalog u tool H).
Qed.

(** X8. A 2xx answer whose body is not JSON is not caught: the
    [JSONDecodeError] of decoding it leaves the dispatcher, after the
    request has been sent. *)
Theorem undecodable_answer_escapes (w : world) (tool : string)
    (arguments : option dict) (l : log) (r : http_request) (msg : string) :
  snd (handle_call_tool w tool arguments l) = (l ++ [r])%list ->
  remote w l r = Undecodable2xx msg ->
  fst (handle_call_tool w tool arguments l) = Raises (JSONDecodeError msg).
Proof.
  destruct arguments as [[|kv rest]|].
  1, 3: (intros H; symmetry in H; elim (log_grows l r H)).
  intros Hlog Hremote. destruct (plan_of tool (kv :: rest)) as [p|e] eqn:P.
  - rewrite (handle_call_tool_planned w tool kv rest l p P) in Hlog |- *.
    destruct (token_value w) as [token|].
    + cbn [fst snd] in Hlog |- *. apply app_inv_head in Hlog. injection Hlog as ->.
      now rewrite Hremote.
    + symmetry in Hlog. elim (log_grows l r Hlog).
  - rewrite (handle_call_tool_refused w tool kv rest l e P) in Hlog.
    symmetry in Hlog. elim (log_grows l r Hlog).
Qed.

Lemma undecodable_answer_escapes_witness :
  fst (handle_call_tool (fixture (Some "token") (Undecodable2xx "Expecting value"))
         "list-workflows" (Some some_arguments) []) =
    Raises (JSONDecodeError "Expecting value").
Proof.
  apply (undecodable_answer_escapes
           (fixture (Some "token") (Undecodable2xx "Expecting value"))
           "list-workflows" (Some some_arguments) []
           (request_for "token" "GET" "workflows" None None) "Expecting value");
    reflexivity.
Defined.

(** ** Tool dispatcher: arguments *)

(** X9. A creation tool given a map that lacks required fields raises the
    [KeyError] of the first one missing, in the order of the schema's
    required list, and sends nothing. *)
Theorem creation_reports_the_first_missing_field (w : world) (u : dict)
    (tool : string) (kv : string * json) (rest : dict) (l : log) (key : string) :
  In tool creation_tools ->
  first_missing (handle_list_tools u) tool (kv :: rest) = Some key ->
  handle_call_tool w tool (Some (kv :: rest : dict)) l = (Raises (KeyError key), l).
Proof.
  intros Hin Hfirst. apply handle_call_tool_refused.
  exact (first_missing_plan u tool (kv :: rest) key Hin Hfirst).
Qed.

Lemma creation_reports_the_first_missing_field_witness :
  handle_call_tool (fixture (Some "token") (Json2xx JNull)) "create-story"
    (Some [("project_id", JInt 7); ("name", JStr "A")]) [] =
    (Raises (KeyError "description"), []).
Proof.
  apply (creation_reports_the_first_missing_field
           (fixture (Some "token") (Json2xx JNull)) [] "create-story"
           ("project_id", JInt 7) [("name", JStr "A")] [] "description").
  - left. reflexivity.
  - reflexivity.
Defined.

Lemma sent_with_plan (w : world) (token tool : string) (kv : string * json)
    (rest : dict) (l : log) (p : plan) :
  SHORTCUT_API_TOKEN w = Some token -> token <> EmptyString ->
  plan_of tool (kv :: rest) = Returns p ->
  handle_call_tool w tool (@Some dict (kv :: rest)) l =
    (caught (obind (answer_of
                      (remote w l (request_for token (plan_method p) (plan_endpoint p)
                                               (plan_json p) (plan_params p))))
                   (plan_format p)),
     (l ++ [request_for token (plan_method p) (plan_endpoint p)
                        (plan_json p) (plan_params p)])%list).
Proof.
  intros Ht Hne P. rewrite (handle_call_tool_planned w tool kv rest l p P).
  assert (E : token_value w = Some token) by (apply token_value_some; now split).
  now rewrite E.
Qed.

Lemma lookup_some_cons (k : string) (arguments : dict) (v : json) :
  lookup k arguments = Some v -> exists kv rest, arguments = kv :: rest.
Proof. destruct arguments as [|kv rest]; [discriminate | eauto]. Qed.

(** X10. With a credential, [create-story] and [create-objective] send a
    POST whose JSON body holds the declared fields and nothing else, in the
    order name, description, then story_type and project_id, or status,
    with the values of the argument map; any other argument is left out. *)
Theorem creation_body_holds_the_declared_fields (w : world) (token : string)
    (arguments : dict) (l : log) :
  SHORTCUT_API_TOKEN w = Some token -> token <> EmptyString ->
  (forall name description story_type project_id,
      lookup "name" arguments = Some name ->
      lookup "description" arguments = Some description ->
      lookup "story_type" arguments = Some story_type ->
      lookup "project_id" arguments = Some project_id ->
      snd (handle_call_tool w "create-story" (Some arguments) l) =
        (l ++ [request_for token "POST" "stories"
                 (Some [("name", name); ("description", description);
                        ("story_type", story_type); ("project_id", project_id)])
                 None])%list) /\
  (forall name description status,
      lookup "name" arguments = Some name ->
      lookup "description" arguments = Some description ->
      lookup "status" arguments = Some status ->
      snd (handle_call_tool w "create-objective" (Some arguments) l) =
        (l ++ [request_for token "POST" "objectives"
                 (Some [("name", name); ("description", description);
                        ("status", status)])
                 None])%list).
Proof.
  intros Ht Hne. split.
  - intros name description story_type project_id Hn Hd Hs Hp.
    destruct (lookup_some_cons _ _ _ Hn) as (kv & rest & ->).
    rewrite (sent_with_plan w token "create-story" kv rest l
               {| plan_method := "POST"; plan_endpoint := "stories";
                  plan_json := Some [("name", name); ("description", description);
                                     ("story_type", story_type);
                                     ("project_id", project_id)];
                  plan_params := None;
                  plan_format := created_format "Created new story:" format_story |}
               Ht Hne); [reflexivity|].
    unfold plan_of, arg_item, getitem. cbn [String.eqb Ascii.eqb Bool.eqb].
    now rewrite Hn, Hd, Hs, Hp.
  - intros name description status Hn Hd Hs.
    destruct (lookup_some_cons _ _ _ Hn) as (kv & rest & ->).
    rewrite (sent_with_plan w token "create-objective" kv rest l
               {| plan_method := "POST"; plan_endpoint := "objectives";
                  plan_json := Some [("name", name); ("description", description);
                                     ("status", status)];
                  plan_params := None;
                  plan_format := created_format "Created new objective:"
                                                format_objective |}
               Ht Hne); [reflexivity|].
    unfold plan_of, arg_item, getitem. cbn [String.eqb Ascii.eqb Bool.eqb].
    now rewrite Hn, Hd, Hs.
Qed.

Lemma creation_body_holds_the_declared_fields_witness :
  snd (handle_call_tool (fixture (Some "token") (Json2xx JNull)) "create-objective"
         (Some [("status", JStr "draft"); ("owner", JStr "me");
                ("name", JStr "O"); ("description", JStr "D")]) []) =
    [request_for "token" "POST" "objectives"
       (Some [("name", JStr "O"); ("description", JStr "D"); ("status", JStr "draft")])
       None].
Proof.
  apply (creation_body_holds_the_declared_fields
           (fixture (Some "token") (Json2xx JNull)) "token"
           [("status", JStr "draft"); ("owner", JStr "me");
            ("name", JStr "O"); ("description", JStr "D")] []
           eq_refl ltac:(discriminate)); reflexivity.
Defined.

(** X11. With a credential, name and description, [create-epic] sends a
    POST to the epics endpoint whose body is name and description, followed
    by milestone_id only when the map gives it a truthy value: an absent
    milestone_id, and also a milestone_id of 0 or null, is left out. *)
Theorem create_epic_body_has_milestone_only_if_truthy (w : world) (token : string)
    (arguments : dict) (l : log) (name description : json) :
  SHORTCUT_API_TOKEN w = Some token -> token <> EmptyString ->
  lookup "name" arguments = Some name ->
  lookup "description" arguments = Some description ->
  snd (handle_call_tool w "create-epic" (Some arguments) l) =
    (l ++ [request_for token "POST" "epics"
             (Some (("name", name) :: ("description", description) ::
                    match lookup "milestone_id" arguments with
                    | Some milestone_id =>
                      if truthy milestone_id then [("milestone_id", milestone_id)] else []
                    | None => []
                    end))
             None])%list.
Proof.
  intros Ht Hne Hn Hd. destruct (lookup_some_cons _ _ _ Hn) as (kv & rest & ->).
  assert (P : exists p,
             plan_of "create-epic" (kv :: rest) = Returns p /\
             plan_method p = "POST" /\ plan_endpoint p = "epics" /\
             plan_params p = None /\
             plan_json p =
               Some (("name", name) :: ("description", description) ::
                     match lookup "milestone_id" (kv :: rest) with
                     | Some milestone_id =>
                       if truthy milestone_id then [("milestone_id", milestone_id)] else []
                     | None => []
                     end)).
  { unfold plan_of, arg_item, getitem, arg_get. cbn [String.eqb Ascii.eqb Bool.eqb].
    rewrite Hn, Hd. cbn [obind]. eexists. split; [reflexivity|].
    cbn [plan_method plan_endpoint plan_params plan_json]. repeat split.
    destruct (lookup "milestone_id" (kv :: rest)) as [m|]; [|reflexivity].
    now destruct (truthy m). }
  destruct P as (p & P & Hm & He & Hp & Hj).
  rewrite (sent_with_plan w token "create-epic" kv rest l p Ht Hne P).
  cbn [snd]. now rewrite Hm, He, Hp, Hj.
Qed.

Lemma create_epic_body_has_milestone_only_if_truthy_witness :
  snd (handle_call_tool (fixture (Some "token") (Json2xx JNull)) "create-epic"
         (Some [("name", JStr "E"); ("description", JStr "D");
                ("milestone_id", JInt 0)]) []) =
    [request_for "token" "POST" "epics"
       (Some [("name", JStr "E"); ("description", JStr "D")]) None].
Proof.
  apply (create_epic_body_has_milestone_only_if_truthy
           (fixture (Some "token") (Json2xx JNull)) "token"
           [("name", JStr "E"); ("description", JStr "D"); ("milestone_id", JInt 0)]
           [] (JStr "E") (JStr "D") eq_refl ltac:(discriminate) eq_refl eq_refl).
Defined.

(** X12. With a credential and a map that is not empty, [list-objectives]
    and [list-epics] send a GET whose query is the status of the map when
    that is truthy, whatever its value, and the empty query when the status
    is absent, null or the empty string. *)
Theorem status_filter_is_passed_only_if_truthy (w : world) (token : string)
    (arguments : dict) (l : log) :
  SHORTCUT_API_TOKEN w = Some token -> token <> EmptyString ->
  arguments <> [] ->
  let query :=
    match lookup "status" arguments with
    | Some status => if truthy status then [("status", status)] else []
    | None => []
    end in
  snd (handle_call_tool w "list-objectives" (Some arguments) l) =
    (l ++ [request_for token "GET" "objectives" None (Some query)])%list /\
  snd (handle_call_tool w "list-epics" (Some arguments) l) =
    (l ++ [request_for token "GET" "epics" None (Some query)])%list.
Proof.
  intros Ht Hne Hargs. destruct arguments as [|kv rest]; [congruence|].
  cbn zeta.
  rewrite (sent_with_plan w token "list-objectives" kv rest l _ Ht Hne eq_refl).
  rewrite (sent_with_plan w token "list-epics" kv rest l _ Ht Hne eq_refl).
  cbn [snd plan_method plan_endpoint plan_json plan_params].
  unfold status_params, arg_get.
  destruct (lookup "status" (kv :: rest)) as [status|]; split; reflexivity.
Qed.

Lemma status_filter_is_passed_only_if_truthy_witness :
  snd (handle_call_tool (fixture (Some "token") (Json2xx (JList []))) "list-epics"
         (Some [("status", JStr "anything")]) []) =
    [request_for "token" "GET" "epics" None (Some [("status", JStr "anything")])] /\
  snd (handle_call_tool (fixture (Some "token") (Json2xx (JList []))) "list-epics"
         (Some [("status", JStr EmptyString)]) []) =
    [request_for "token" "GET" "epics" None (Some [])].
Proof.
  split.
  - apply (status_filter_is_passed_only_if_truthy
             (fixture (Some "token") (Json2xx (JList []))) "token"
             [("status", JStr "anything")] [] eq_refl ltac:(discriminate)
             ltac:(discriminate)).
  - apply (status_filter_is_passed_only_if_truthy
             (fixture (Some "token") (Json2xx (JList []))) "token"
             [("status", JStr EmptyString)] [] eq_refl ltac:(discriminate)
             ltac:(discriminate)).
Defined.

(** X13. With a credential and a map that is not empty, [search-stories]
    sends a GET to search/stories whose query is the argument [query],
    [None] when the map has none.  An answer object without a [data] key is
    read as no result and gives the "No stories found" block for that
    query; an answer that is a JSON list has no [get], and the
    [AttributeError] leaves the dispatcher. *)
Theorem search_sends_the_query_and_reads_data (w : world) (token : string)
    (arguments : dict) (l : log) :
  SHORTCUT_API_TOKEN w = Some token -> token <> EmptyString ->
  arguments <> [] ->
  let query := match lookup "query" arguments with
               | Some q => q
               | None => JNull
               end in
  let request := request_for token "GET" "search/stories" None
                             (Some [("query", query)]) in
  snd (handle_call_tool w "search-stories" (Some arguments) l) = (l ++ [request])%list /\
  (forall fields,
      remote w l request = Json2xx (JObj fields) ->
      lookup "data" fields = None ->
      fst (handle_call_tool w "search-stories" (Some arguments) l) =
        Returns (text_block ("No stories found matching query: " ++ str query))) /\
  (forall items,
      remote w l request = Json2xx (JList items) ->
      fst (handle_call_tool w "search-stories" (Some arguments) l) =
        Raises AttributeError).
Proof.
  intros Ht Hne Hargs. destruct arguments as [|kv rest]; [congruence|].
  cbn zeta.
  rewrite (sent_with_plan w token "search-stories" kv rest l _ Ht Hne eq_refl).
  cbn [fst snd plan_method plan_endpoint plan_json plan_params plan_format].
  change (arg_get (kv :: rest) "query")
    with (match lookup "query" (kv :: rest) with Some q => q | None => JNull end).
  split; [reflexivity | split].
  - intros fields Hremote Hdata. rewrite Hremote. cbn [answer_of obind].
    unfold search_stories_format. cbn [get]. now rewrite Hdata.
  - intros items Hremote. now rewrite Hremote.
Qed.

Lemma search_sends_the_query_and_reads_data_witness :
  handle_call_tool (fixture (Some "token") (Json2xx (JObj [("total", JInt 0)])))
    "search-stories" (Some some_arguments) [] =
    (Returns (text_block "No stories found matching query: None"),
     [request_for "token" "GET" "search/stories" None (Some [("query", JNull)])]).
Proof.
  pose proof (search_sends_the_query_and_reads_data
                (fixture (Some "token") (Json2xx (JObj [("total", JInt 0)])))
                "token" some_arguments [] eq_refl ltac:(discriminate)
                ltac:(discriminate)) as (Hsent & Hnone & _).
  apply injective_projections; [|exact Hsent].
  exact (Hnone [("total", JInt 0)] eq_refl eq_refl).
Defined.

(** X14. What a call sends depends on the credential, the tool and the
    arguments only: when a call sends a request, the same call made after
    any other history sends the same request again.  Nothing is remembered
    and nothing is deduplicated; two equal creation calls in a row send two
    equal POSTs. *)
Theorem same_call_sends_the_same_request_again (w : world) (tool : string)
    (arguments : option dict) (l : log) (r : http_request) :
  snd (handle_call_tool w tool arguments l) = (l ++ [r])%list ->
  (forall l', snd (handle_call_tool w tool arguments l') = (l' ++ [r])%list) /\
  snd (handle_call_tool w tool arguments
         (snd (handle_call_tool w tool arguments l))) = (l ++ [r; r])%list.
Proof.
  intros H.
  assert (G : forall l', snd (handle_call_tool w tool arguments l') = (l' ++ [r])%list).
  { destruct arguments as [[|kv rest]|].
    1, 3: (symmetry in H; elim (log_grows l r H)).
    intros l'. destruct (plan_of tool (kv :: rest)) as [p|e] eqn:P.
    - rewrite (handle_call_tool_planned w tool kv rest l p P) in H.
      rewrite (handle_call_tool_planned w tool kv rest l' p P).
      destruct (token_value w) as [token|].
      + cbn [snd] in H |- *. apply app_inv_head in H. now injection H as ->.
      + symmetry in H. elim (log_grows l r H).
    - rewrite (handle_call_tool_refused w tool kv rest l e P) in H.
      symmetry in H. elim (log_grows l r H). }
  split; [exact G|]. rewrite H, G, <- app_assoc. reflexivity.
Qed.

Lemma same_call_sends_the_same_request_again_witness :
  snd (handle_call_tool (fixture (Some "token") (Json2xx (story_number 1)))
         "create-story" (Some story_arguments)
         (snd (handle_call_tool (fixture (Some "token") (Json2xx (story_number 1)))
                 "create-story" (Some story_arguments) []))) =
    [create_story_request "token"; create_story_request "token"].
Proof.
  apply (same_call_sends_the_same_request_again
           (fixture (Some "token") (Json2xx (story_number 1)))
           "create-story" (Some story_arguments) [] (create_story_request "token")).
  reflexivity.
Defined.

(** ** Resource formatters *)

Ltac accepts_cases fields :=
  repeat match goal with
         | |- context [lookup ?k fields] => destruct (lookup k fields)
         end;
  cbn [obind get getitem lookup andb is_object];
  repeat match goal with
         | |- context [get ?j _ _] => is_var j; destruct j
         | |- context [is_object ?j] => is_var j; destruct j
         end;
  cbn [obind get getitem lookup andb is_object];
  repeat match goal with
         | |- context [lookup ?k ?d] => destruct (lookup k d)
         end;
  cbn [obind];
  split; try discriminate; try (intros [block H]; discriminate H);
  try (intros _; eexists; reflexivity).

(** X15. Each formatter returns a block exactly on the records of its
    kind: [format_objective] on an object with a name; [format_epic] on an
    object with a name whose milestone, when present, is an object;
    [format_story] on an object with id and name whose workflow_state, when
    present, is an object; the project block on an object with id and
    name.  On anything else it raises. *)
Theorem formatters_accept_exactly_their_records (v : json) :
  (accepts format_objective v <-> objective_record v = true) /\
  (accepts format_epic v <-> epic_record v = true) /\
  (accepts format_story v <-> story_record v = true) /\
  (accepts format_project v <-> project_record v = true).
Proof.
  unfold accepts, format_objective, format_epic, format_story, format_project,
    objective_record, epic_record, story_record, project_record, has_key.
  destruct v as [| | | | | |fields]; cbn [getitem get obind];
    try (repeat split; try discriminate; intros [block H]; discriminate H).
  split; [|split; [|split]].
  - accepts_cases fields.
  - accepts_cases fields.
  - accepts_cases fields.
  - accepts_cases fields.
Qed.


Ltac failure_leaf :=
  split;
  [ first [ discriminate
          | intros [= <-];
            first [ left; split; reflexivity
                  | right; eexists; split; [reflexivity|];
                    first [ left; split; [assumption || reflexivity | reflexivity]
                          | right; left; repeat split; congruence
                          | right; right; repeat split; try congruence;
                            eexists; repeat split; try eassumption; reflexivity
                          | right; split; [congruence|];
                            eexists; repeat split; try eassumption; reflexivity ] ] ]
  | intros H; decompose [and or ex] H; clear H; subst;
    repeat match goal with
           | H : JObj _ = JObj _ |- _ => injection H as <-
           end;
    try discriminate; try congruence;
    repeat match goal with
           | H1 : lookup ?k ?f = Some ?a, H2 : lookup ?k ?f = Some ?b |- _ =>
             rewrite H1 in H2; injection H2 as <-
           end;
    try discriminate; try congruence ].

(** X16. [format_story] fails in exactly these ways, in this order: with
    [TypeError] on a value that is not an object; with [KeyError] for id
    when id is missing; with [KeyError] for name when name alone is
    missing; with [AttributeError] when workflow_state is present and not
    an object, null included.  [format_epic] likewise, for name and
    milestone. *)
Theorem formatters_fail_in_this_order (v : json) (e : exn) :
  (format_story v = Raises e <->
   (is_object v = false /\ e = TypeError) \/
   (exists fields, v = JObj fields /\
      ((lookup "id" fields = None /\ e = KeyError "id") \/
       (lookup "id" fields <> None /\ lookup "name" fields = None /\
        e = KeyError "name") \/
       (lookup "id" fields <> None /\ lookup "name" fields <> None /\
        exists state, lookup "workflow_state" fields = Some state /\
                      is_object state = false /\ e = AttributeError)))) /\
  (format_epic v = Raises e <->
   (is_object v = false /\ e = TypeError) \/
   (exists fields, v = JObj fields /\
      ((lookup "name" fields = None /\ e = KeyError "name") \/
       (lookup "name" fields <> None /\
        exists milestone, lookup "milestone" fields = Some milestone /\
                          is_object milestone = false /\ e = AttributeError)))).
Proof.
  unfold format_story, format_epic. split.
  - destruct v as [| | | | | |fields]; cbn [getitem get obind is_object];
      try solve [failure_leaf].
    destruct (lookup "id" fields) as [id|] eqn:Eid; cbn [obind];
      [|solve [failure_leaf]].
    destruct (lookup "name" fields) as [name|] eqn:Ename; cbn [obind];
      [|solve [failure_leaf]].
    destruct (lookup "workflow_state" fields) as [[| | | | | |state_fields]|] eqn:Estate;
      cbn [get obind];
      repeat match goal with
             | |- context [match lookup ?k ?d with _ => _ end] => destruct (lookup k d)
             end; cbn [obind]; solve [failure_leaf].
  - destruct v as [| | | | | |fields]; cbn [getitem get obind is_object];
      try solve [failure_leaf].
    destruct (lookup "name" fields) as [name|] eqn:Ename; cbn [obind];
      [|solve [failure_leaf]].
    destruct (lookup "milestone" fields) as [[| | | | | |m_fields]|] eqn:Em;
      cbn [get obind];
      repeat match goal with
             | |- context [match lookup ?k ?d with _ => _ end] => destruct (lookup k d)
             end; cbn [obind]; solve [failure_leaf].
Qed.

Lemma omap_first_failure {A B} (f : A -> outcome B) (good : list A) (bad : A)
    (rest : list A) (e : exn) :
  Forall (fun x => exists y, f x = Returns y) good ->
  f bad = Raises e ->
  omap f (good ++ bad :: rest) = Raises e.
Proof.
  intros Hgood Hbad. induction Hgood as [|x good [y Hy] _ IH]; cbn [app omap].
  - now rewrite Hbad.
  - now rewrite Hy, IH.
Qed.

Lemma caught_fault (e : exn) : shape_fault e -> caught (Raises e) = Raises e.
Proof. destruct e; intros H; try contradiction; reflexivity. Qed.

Lemma listing_first_failure (header : string) (format : json -> outcome string)
    (good : list json) (bad : json) (rest : list json) (e : exn) :
  Forall (accepts format) good -> format bad = Raises e -> shape_fault e ->
  caught (listing_format header format (JList (good ++ bad :: rest))) = Raises e /\
  caught (guarded_listing_format header header format (JList (good ++ bad :: rest))) =
    Raises e.
Proof.
  intros Hgood Hbad Hfault.
  assert (E : listing_format header format (JList (good ++ bad :: rest)) = Raises e).
  { unfold listing_format. cbn [iterate obind].
    now rewrite (omap_first_failure format good bad rest e Hgood Hbad). }
  split.
  - rewrite E. now apply caught_fault.
  - unfold guarded_listing_format.
    assert (T : truthy (JList (good ++ bad :: rest)) = true) by now destruct good.
    rewrite T. cbn [negb]. rewrite E. now apply caught_fault.
Qed.

(** X17. A listing is all or nothing.  With a credential and a map that is
    not empty, when the answered list holds one record its formatter
    rejects, [list-projects], [list-workflows], [list-objectives] and
    [list-epics] raise that record's error, the first such in the order of
    the answer, and return no block for the records before it. *)
Theorem one_bad_record_fails_the_whole_listing (w : world) (token : string)
    (arguments : dict) (l : log) (good : list json) (bad : json)
    (rest : list json) (e : exn) :
  SHORTCUT_API_TOKEN w = Some token -> token <> EmptyString ->
  arguments <> [] ->
  (Forall (accepts format_project) good -> format_project bad = Raises e ->
   remote w l (request_for token "GET" "projects" None None) =
     Json2xx (JList (good ++ bad :: rest)) ->
   fst (handle_call_tool w "list-projects" (Some arguments) l) = Raises e) /\
  (Forall (accepts format_workflow) good -> format_workflow bad = Raises e ->
   remote w l (request_for token "GET" "workflows" None None) =
     Json2xx (JList (good ++ bad :: rest)) ->
   fst (handle_call_tool w "list-workflows" (Some arguments) l) = Raises e) /\
  (Forall (accepts format_objective) good -> format_objective bad = Raises e ->
   remote w l (request_for token "GET" "objectives" None
                 (Some (status_params arguments))) =
     Json2xx (JList (good ++ bad :: rest)) ->
   fst (handle_call_tool w "list-objectives" (Some arguments) l) = Raises e) /\
  (Forall (accepts format_epic) good -> format_epic bad = Raises e ->
   remote w l (request_for token "GET" "epics" None
                 (Some (status_params arguments))) =
     Json2xx (JList (good ++ bad :: rest)) ->
   fst (handle_call_tool w "list-epics" (Some arguments) l) = Raises e).
Proof.
  intros Ht Hne Hargs. destruct arguments as [|kv rest']; [congruence|].
  split; [|split; [|split]]; intros Hgood Hbad Hremote.
  - rewrite (sent_with_plan w token "list-projects" kv rest' l _ Ht Hne eq_refl).
    cbn [fst plan_method plan_endpoint plan_json plan_params plan_format].
    rewrite Hremote. cbn [answer_of obind].
    apply listing_first_failure; auto. exact (format_project_fault bad e Hbad).
  - rewrite (sent_with_plan w token "list-workflows" kv rest' l _ Ht Hne eq_refl).
    cbn [fst plan_method plan_endpoint plan_json plan_params plan_format].
    rewrite Hremote. cbn [answer_of obind].
    apply listing_first_failure; auto. exact (format_workflow_fault bad e Hbad).
  - rewrite (sent_with_plan w token "list-objectives" kv rest' l _ Ht Hne eq_refl).
    cbn [fst plan_method plan_endpoint plan_json plan_params plan_format].
    rewrite Hremote. cbn [answer_of obind]. unfold guarded_listing_format.
    assert (T : truthy (JList (good ++ bad :: rest)) = true) by now destruct good.
    rewrite T. cbn [negb].
    apply listing_first_failure; auto. exact (format_objective_fault bad e Hbad).
  - rewrite (sent_with_plan w token "list-epics" kv rest' l _ Ht Hne eq_refl).
    cbn [fst plan_method plan_endpoint plan_json plan_params plan_format].
    rewrite Hremote. cbn [answer_of obind]. unfold guarded_listing_format.
    assert (T : truthy (JList (good ++ bad :: rest)) = true) by now destruct good.
    rewrite T. cbn [negb].
    apply listing_first_failure; auto. exact (format_epic_fault bad e Hbad).
Qed.

Lemma one_bad_record_fails_the_whole_listing_witness :
  fst (handle_call_tool
         (fixture (Some "token")
            (Json2xx (JList [story_number 1; JObj [("id", JInt 2)]; story_number 3])))
         "list-projects" (Some some_arguments) []) =
    Raises (KeyError "name").
Proof.
  apply (one_bad_record_fails_the_whole_listing
           (fixture (Some "token")
              (Json2xx (JList [story_number 1; JObj [("id", JInt 2)]; story_number 3])))
           "token" some_arguments [] [story_number 1] (JObj [("id", JInt 2)])
           [story_number 3] (KeyError "name") eq_refl ltac:(discriminate)
           ltac:(discriminate)).
  - repeat constructor. eexists. reflexivity.
  - reflexivity.
  - reflexivity.
Defined.

(** X18. [search-stories] never reads a record past the tenth: when the
    first ten records of the answer are stories, it shows exactly those
    ten, whatever follows them, malformed records included. *)
Theorem search_never_reads_past_the_tenth (w : world) (token : string)
    (arguments : dict) (l : log) (search_results : json) (first later : list json) :
  SHORTCUT_API_TOKEN w = Some token -> token <> EmptyString ->
  arguments <> [] ->
  remote w l (request_for token "GET" "search/stories" None
                (Some [("query", arg_get arguments "query")])) =
    Json2xx search_results ->
  get search_results "data" (JList []) = Returns (JList (first ++ later)) ->
  length first = 10%nat ->
  Forall (accepts format_story) first ->
  shows format_story first
    (fun blocks => "Found stories:" ++ nl ++ nl ++ join nl blocks)
    (fst (handle_call_tool w "search-stories" (Some arguments) l)).
Proof.
  intros Ht Hne Hargs Hremote Hdata Hlen Hfirst.
  destruct arguments as [|kv rest]; [congruence|].
  rewrite (sent_with_plan w token "search-stories" kv rest l _ Ht Hne eq_refl).
  cbn [fst plan_method plan_endpoint plan_json plan_params plan_format].
  rewrite Hremote. cbn [answer_of obind].
  unfold search_stories_format. rewrite Hdata. cbn [obind].
  assert (T : truthy (JList (first ++ later)) = true).
  { destruct first; [discriminate Hlen | reflexivity]. }
  rewrite T. cbn [negb slice10 iterate obind].
  assert (F : firstn 10 (first ++ later) = first).
  { rewrite firstn_app, (firstn_all2 first) by lia.
    rewrite Hlen, Nat.sub_diag. apply app_nil_r. }
  rewrite F.
  destruct (omap_accepts format_story first Hfirst) as (blocks & Hm & HF).
  exists blocks. rewrite Hm. cbn [obind caught]. repeat split; [exact HF|].
  symmetry. exact (Forall2_length HF).
Qed.

Lemma search_never_reads_past_the_tenth_witness :
  shows format_story (firstn 10 fifteen_stories)
    (fun blocks => "Found stories:" ++ nl ++ nl ++ join nl blocks)
    (fst (handle_call_tool
            (fixture (Some "token")
               (Json2xx (JObj [("data", JList (firstn 10 fifteen_stories ++
                                               [JNull; JStr "not a story"]))])))
            "search-stories" (Some some_arguments) [])).
Proof.
  apply (search_never_reads_past_the_tenth
           (fixture (Some "token")
              (Json2xx (JObj [("data", JList (firstn 10 fifteen_stories ++
                                              [JNull; JStr "not a story"]))])))
           "token" some_arguments []
           (JObj [("data", JList (firstn 10 fifteen_stories ++
                                  [JNull; JStr "not a story"]))])
           (firstn 10 fifteen_stories) [JNull; JStr "not a story"]
           eq_refl ltac:(discriminate) ltac:(discriminate) eq_refl eq_refl eq_refl).
  apply Forall_firstn_of. exact fifteen_stories_accepted.
Defined.

Lemma append_assoc (a b c : string) : (a ++ b) ++ c = a ++ b ++ c.
Proof. induction a as [|x a IH]; simpl; [reflexivity | now rewrite IH]. Qed.

Lemma ends_with_refl (x : string) : ends_with x x.
Proof. now exists EmptyString. Qed.

Lemma ends_with_append (a s x : string) : ends_with s x -> ends_with (a ++ s) x.
Proof. intros [p ->]. exists (a ++ p). now rewrite append_assoc. Qed.

Lemma ends_with_cons (c : ascii) (s x : string) :
  ends_with s x -> ends_with (String c s) x.
Proof. intros [p ->]. now exists (String c p). Qed.

Lemma contains_cons (c : ascii) (s sub : string) :
  contains sub s -> contains sub (String c s).
Proof. intros (x & y & ->). now exists (String c x), y. Qed.

Lemma contains_append (a s sub : string) : contains sub s -> contains sub (a ++ s).
Proof. intros (x & y & ->). exists (a ++ x), y. now rewrite append_assoc. Qed.

Ltac framed H :=
  repeat (apply obind_returns in H as (? & _ & H));
  injection H as <-;
  split;
  [ eexists; reflexivity
  | repeat first [ apply ends_with_refl | apply ends_with_append
                 | apply ends_with_cons ] ].

(** X19. Every block a formatter returns opens with the tag of its kind
    and closes with a line feed and the separator "---", whatever the
    record holds. *)
Theorem blocks_are_framed (v : json) (block : string) :
  (format_objective v = Returns block ->
   starts_with block "Objective: " /\ ends_with block (nl ++ "---")) /\
  (format_epic v = Returns block ->
   starts_with block "Epic: " /\ ends_with block (nl ++ "---")) /\
  (format_story v = Returns block ->
   starts_with block "Story " /\ ends_with block (nl ++ "---")) /\
  (format_project v = Returns block ->
   starts_with block "Project ID: " /\ ends_with block (nl ++ "---")) /\
  (format_workflow v = Returns block ->
   starts_with block "Workflow: " /\ ends_with block (nl ++ "---")).
Proof.
  unfold format_objective, format_epic, format_story, format_project, format_workflow.
  split; [|split; [|split; [|split]]]; intros H; framed H.
Qed.

Ltac shown H :=
  repeat (apply obind_returns in H as (? & ? & H));
  injection H as <-;
  repeat match goal with
         | E : getitem (JObj _) _ = Returns _ |- _ => clear E
         | E : get (JObj ?f) ?k _ = Returns _, L : lookup ?k ?f = Some _ |- _ =>
           cbn [get] in E; rewrite L in E; injection E as <-
         | E : get _ _ _ = Returns _ |- _ => clear E
         end;
  repeat first [ solve [exists EmptyString; eexists; reflexivity]
               | apply contains_append
               | apply contains_cons ].

(** X20. A default text stands in for a field only when the key is absent.
    A record whose description is present and null is formatted with the
    line "Description: None", not with "No description". *)
Theorem null_description_is_shown_as_None (fields : dict) (block : string) :
  lookup "description" fields = Some JNull ->
  (format_objective (JObj fields) = Returns block ->
   contains ("Description: None" ++ nl) block) /\
  (format_epic (JObj fields) = Returns block ->
   contains ("Description: None" ++ nl) block) /\
  (format_story (JObj fields) = Returns block ->
   contains ("Description: None" ++ nl) block) /\
  (format_project (JObj fields) = Returns block ->
   contains ("Description: None" ++ nl) block).
Proof.
  intros L. unfold format_objective, format_epic, format_story, format_project.
  split; [|split; [|split]]; intros H; shown H.
Qed.

Lemma null_description_is_shown_as_None_witness :
  contains ("Description: None" ++ nl)
    ("Objective: O" ++ nl ++ "Status: Unknown" ++ nl ++
     "Description: None" ++ nl ++ "URL: " ++ nl ++ "---").
Proof.
  apply (proj1 (null_description_is_shown_as_None
                  [("name", JStr "O"); ("description", JNull)]
                  ("Objective: O" ++ nl ++ "Status: Unknown" ++ nl ++
                   "Description: None" ++ nl ++ "URL: " ++ nl ++ "---")
                  eq_refl)).
  reflexivity.
Defined.

(** ** Tool dispatcher: creation *)

Lemma plan_create_story (arguments : dict) (name description story_type project_id : json) :
  lookup "name" arguments = Some name ->
  lookup "description" arguments = Some description ->
  lookup "story_type" arguments = Some story_type ->
  lookup "project_id" arguments = Some project_id ->
  plan_of "create-story" arguments =
    Returns {| plan_method := "POST"; plan_endpoint := "stories";
               plan_json := Some (story_body name description story_type project_id);
               plan_params := None;
               plan_format := created_format "Created new story:" format_story |}.
Proof.
  intros Hn Hd Hs Hp. unfold plan_of, arg_item, getitem.
  cbn [String.eqb Ascii.eqb Bool.eqb]. now rewrite Hn, Hd, Hs, Hp.
Qed.

Lemma plan_create_objective (arguments : dict) (name description status : json) :
  lookup "name" arguments = Some name ->
  lookup "description" arguments = Some description ->
  lookup "status" arguments = Some status ->
  plan_of "create-objective" arguments =
    Returns {| plan_method := "POST"; plan_endpoint := "objectives";
               plan_json := Some (objective_body name description status);
               plan_params := None;
               plan_format := created_format "Created new objective:" format_objective |}.
Proof.
  intros Hn Hd Hs. unfold plan_of, arg_item, getitem.
  cbn [String.eqb Ascii.eqb Bool.eqb]. now rewrite Hn, Hd, Hs.
Qed.

Lemma plan_create_epic (arguments : dict) (name description : json) :
  lookup "name" arguments = Some name ->
  lookup "description" arguments = Some description ->
  plan_of "create-epic" arguments =
    Returns {| plan_method := "POST"; plan_endpoint := "epics";
               plan_json := Some (epic_body name description
                                            (lookup "milestone_id" arguments));
               plan_params := None;
               plan_format := created_format "Created new epic:" format_epic |}.
Proof.
  intros Hn Hd. unfold plan_of, arg_item, getitem, arg_get, epic_body.
  cbn [String.eqb Ascii.eqb Bool.eqb]. rewrite Hn, Hd. cbn [obind].
  destruct (lookup "milestone_id" arguments) as [m|]; [|reflexivity].
  now destruct (truthy m).
Qed.

Lemma created_outcome (header : string) (format : json -> outcome string)
    (record : json) :
  (forall x e, format x = Raises e -> shape_fault e) ->
  caught (created_format header format record) =
    match format record with
    | Returns block => Returns (text_block (header ++ nl ++ nl ++ block))
    | Raises e => Raises e
    end.
Proof.
  intros Hf. unfold created_format.
  destruct (format record) as [block|e] eqn:E; cbn [obind caught]; [reflexivity|].
  apply caught_fault. exact (Hf record e E).
Qed.

(** X21. With a credential and its required arguments, a creation tool
    answered with a record returns the one block "Created new <kind>:", an
    empty line, and the formatted record.  When the formatter rejects the
    answered record, the call raises the formatter's error, and the POST
    has been sent all the same: an error after a creation does not mean
    that nothing was created. *)
Theorem creation_reports_the_answered_record (w : world) (token : string)
    (arguments : dict) (l : log) (record : json) :
  SHORTCUT_API_TOKEN w = Some token -> token <> EmptyString ->
  (forall name description story_type project_id,
      lookup "name" arguments = Some name ->
      lookup "description" arguments = Some description ->
      lookup "story_type" arguments = Some story_type ->
      lookup "project_id" arguments = Some project_id ->
      let request := request_for token "POST" "stories"
                       (Some (story_body name description story_type project_id))
                       None in
      remote w l request = Json2xx record ->
      handle_call_tool w "create-story" (Some arguments) l =
        (match format_story record with
         | Returns block =>
           Returns (text_block ("Created new story:" ++ nl ++ nl ++ block))
         | Raises e => Raises e
         end, (l ++ [request])%list)) /\
  (forall name description status,
      lookup "name" arguments = Some name ->
      lookup "description" arguments = Some description ->
      lookup "status" arguments = Some status ->
      let request := request_for token "POST" "objectives"
                       (Some (objective_body name description status)) None in
      remote w l request = Json2xx record ->
      handle_call_tool w "create-objective" (Some arguments) l =
        (match format_objective record with
         | Returns block =>
           Returns (text_block ("Created new objective:" ++ nl ++ nl ++ block))
         | Raises e => Raises e
         end, (l ++ [request])%list)) /\
  (forall name description,
      lookup "name" arguments = Some name ->
      lookup "description" arguments = Some description ->
      let request := request_for token "POST" "epics"
                       (Some (epic_body name description
                                        (lookup "milestone_id" arguments))) None in
      remote w l request = Json2xx record ->
      handle_call_tool w "create-epic" (Some arguments) l =
        (match format_epic record with
         | Returns block =>
           Returns (text_block ("Created new epic:" ++ nl ++ nl ++ block))
         | Raises e => Raises e
         end, (l ++ [request])%list)).
Proof.
  intros Ht Hne. split; [|split].
  - intros name description story_type project_id Hn Hd Hs Hp request Hremote.
    destruct (lookup_some_cons _ _ _ Hn) as (kv & rest & ->).
    rewrite (sent_with_plan w token "create-story" kv rest l _ Ht Hne
               (plan_create_story _ _ _ _ _ Hn Hd Hs Hp)).
    cbn [plan_method plan_endpoint plan_json plan_params plan_format].
    fold request. rewrite Hremote. cbn [answer_of obind].
    now rewrite (created_outcome "Created new story:" format_story record
                   format_story_fault).
  - intros name description status Hn Hd Hs request Hremote.
    destruct (lookup_some_cons _ _ _ Hn) as (kv & rest & ->).
    rewrite (sent_with_plan w token "create-objective" kv rest l _ Ht Hne
               (plan_create_objective _ _ _ _ Hn Hd Hs)).
    cbn [plan_method plan_endpoint plan_json plan_params plan_format].
    fold request. rewrite Hremote. cbn [answer_of obind].
    now rewrite (created_outcome "Created new objective:" format_objective record
                   format_objective_fault).
  - intros name description Hn Hd request Hremote.
    destruct (lookup_some_cons _ _ _ Hn) as (kv & rest & ->).
    rewrite (sent_with_plan w token "create-epic" kv rest l _ Ht Hne
               (plan_create_epic _ _ _ Hn Hd)).
    cbn [plan_method plan_endpoint plan_json plan_params plan_format].
    fold request. rewrite Hremote. cbn [answer_of obind].
    now rewrite (created_outcome "Created new epic:" format_epic record
                   format_epic_fault).
Qed.

Lemma creation_reports_the_answered_record_witness :
  handle_call_tool
    (fixture (Some "token") (Json2xx (JObj [("name", JStr "E"); ("milestone", JNull)])))
    "create-epic" (Some [("name", JStr "E"); ("description", JStr "D")]) [] =
    (Raises AttributeError,
     [request_for "token" "POST" "epics"
        (Some [("name", JStr "E"); ("description", JStr "D")]) None]).
Proof.
  apply (proj2 (proj2 (creation_reports_the_answered_record
                         (fixture (Some "token")
                            (Json2xx (JObj [("name", JStr "E"); ("milestone", JNull)])))
                         "token" [("name", JStr "E"); ("description", JStr "D")] []
                         (JObj [("name", JStr "E"); ("milestone", JNull)])
                         eq_refl ltac:(discriminate)))
               (JStr "E") (JStr "D") eq_refl eq_refl eq_refl).
Defined.

(** ** Workflows *)

(** X22. A workflow object with a name and a list of states, each an
    object with name and id, is formatted as "Workflow: <name>", the line
    "States:", one line "- <name> (ID: <id>)" per state in order, and the
    separator; a workflow without a states key has no state line. *)
Theorem workflow_lists_every_state (fields : dict) (name : json) (states : list json) :
  lookup "name" fields = Some name ->
  lookup "states" fields = Some (JList states) \/
  (lookup "states" fields = None /\ states = []) ->
  Forall (accepts format_state) states ->
  exists lines,
    Forall2 (fun state line =>
               exists state_name state_id,
                 getitem state "name" = Returns state_name /\
                 getitem state "id" = Returns state_id /\
                 line = "- " ++ str state_name ++ " (ID: " ++ str state_id ++ ")")
            states lines /\
    format_workflow (JObj fields) =
      Returns ("Workflow: " ++ str name ++ nl ++
               "States:" ++ nl ++ join nl lines ++ nl ++ "---").
Proof.
  intros Hname Hstates Hacc.
  destruct (omap_accepts format_state states Hacc) as (lines & Hm & HF).
  exists lines. split.
  - revert HF. apply Forall2_impl. intros state line Hline.
    unfold format_state in Hline.
    apply obind_returns in Hline as (state_name & Hn & Hline).
    apply obind_returns in Hline as (state_id & Hi & Hline).
    injection Hline as <-. now exists state_name, state_id.
  - unfold format_workflow. cbn [get getitem].
    destruct Hstates as [Hs|[Hs ->]]; rewrite Hs; cbn [obind iterate];
      rewrite Hm; cbn [obind]; now rewrite Hname.
Qed.

Lemma workflow_lists_every_state_witness :
  format_workflow
    (JObj [("name", JStr "Engineering");
           ("states", JList [JObj [("id", JInt 1); ("name", JStr "To Do")];
                             JObj [("id", JInt 2); ("name", JStr "Done")]])]) =
    Returns ("Workflow: Engineering" ++ nl ++ "States:" ++ nl ++
             "- To Do (ID: 1)" ++ nl ++ "- Done (ID: 2)" ++ nl ++ "---").
Proof.
  destruct (workflow_lists_every_state
              [("name", JStr "Engineering");
               ("states", JList [JObj [("id", JInt 1); ("name", JStr "To Do")];
                                 JObj [("id", JInt 2); ("name", JStr "Done")]])]
              (JStr "Engineering")
              [JObj [("id", JInt 1); ("name", JStr "To Do")];
               JObj [("id", JInt 2); ("name", JStr "Done")]]
              eq_refl (or_introl eq_refl))
    as (lines & _ & H).
  - repeat constructor; eexists; reflexivity.
  - reflexivity.
Defined.
